(** * Draper-Red-Edge: the remote API driver and the Lavalink auto-update
      setting cache

    A shallow embedding of
    - [redbot/core/drivers/apidriver.py] (the driver that talks to a remote
      configuration service over HTTP), and
    - [redbot/cogs/audio/core/utilities/setting_cache/managed_lavalink_auto_update.py]
      (the per-setting cache manager of the "lavalink autoupdate" flag),
    followed by the properties of the two components.

    Conventions of the embedding.
    - A coroutine is modelled by the sequential run of its body: every
      [await] is a plain call, no other task is interleaved.
    - A Python [str] is represented by its UTF-8 encoding, a Rocq [string];
      [bytes] is [list Byte.byte].  [s.encode("utf-8")] and
      [b.decode("utf-8")] are then the two changes of representation.
    - JSON numbers are integers; floats are not modelled.
    - A Python [dict] whose order matters on the wire is an association
      list with distinct keys, in insertion order. *)

From Stdlib Require Import ZArith String Ascii List Bool Lia.
From stdpp Require Import base option gmap strings list pretty.

Set Warnings "-register-all".
Local Open Scope Z_scope.
Local Open Scope string_scope.
Local Open Scope list_scope.

(** ** Values *)

(** The JSON-serialisable values of Python, as the codecs take and
    return them. *)
Inductive json : Type :=
| JNull
| JBool (b : bool)
| JInt (n : Z)
| JStr (s : string)
| JArr (xs : list json)
| JObj (kvs : list (string * json)).

(** The integers [orjson] writes: 64 bits, signed or unsigned.  On a
    value with an integer outside this range [dumps] raises instead of
    returning; the development speaks of the dump of such a value
    nowhere, and the properties that depend on a dump being made take
    [serialisable] as a premise. *)
Definition in_64_bits (n : Z) : bool :=
  (Z.leb (- 2 ^ 63) n && Z.ltb n (2 ^ 64))%bool.

Fixpoint serialisable (j : json) : bool :=
  match j with
  | JInt n => in_64_bits n
  | JArr xs => forallb serialisable xs
  | JObj kvs => forallb (fun kv => serialisable (snd kv)) kvs
  | _ => true
  end.

(** Any value the driver's helpers may be handed: a JSON value or a
    [bytes] object (the only kind of value here that has [decode]). *)
Inductive pyval : Type :=
| PJson (j : json)
| PBytes (b : list Byte.byte).

(** [hasattr(value, "decode")] *)
Definition hasattr_decode (value : pyval) : bool :=
  match value with
  | PBytes _ => true
  | PJson _ => false
  end.

(** [dict.get(key)]: the value bound to [key], [None] when absent. *)
Fixpoint dict_get (kvs : list (string * json)) (key : string) : json :=
  match kvs with
  | [] => JNull
  | (k, v) :: rest => if String.eqb k key then v else dict_get rest key
  end.

(** ** Exceptions and outcomes *)

Inductive exn : Type :=
| KeyError
| ConfigError (msg : string)       (* redbot.core.errors.ConfigError *)
| JSONDecodeError                  (* raised by [response.json] *)
| AttributeError                   (* [.get] on a value that is not a dict *)
| OtherException (what : string).  (* any other subclass of [Exception] *)

Inductive outcome (A : Type) : Type :=
| Ret (a : A)
| Raise (e : exn).
Arguments Ret {A} a.
Arguments Raise {A} e.

Definition returns {A} (o : outcome A) : bool :=
  match o with Ret _ => true | Raise _ => false end.

(** ** The two JSON codecs

    [orjson] and [ujson] are external libraries: they are parameters of
    the development.  [orjson.dumps] returns [bytes], [ujson.dumps]
    returns [str]; both [loads] take the text of a document. *)
Record json_library : Type := {
  orjson_dumps : json -> list Byte.byte;
  ujson_dumps : json -> string;
  orjson_loads : string -> option json;
  ujson_loads : string -> option json
}.

Definition encode (s : string) : list Byte.byte := list_byte_of_string s.
Definition decode (b : list Byte.byte) : string := string_of_list_byte b.

(** *** A reference codec, to run the model on concrete documents *)
Module Reference.

Definition dquote : ascii := "034"%char.
Definition backslash : ascii := "092"%char.

Fixpoint escape (s : string) : string :=
  match s with
  | EmptyString => EmptyString
  | String c rest =>
      if (Ascii.eqb c dquote || Ascii.eqb c backslash)%bool
      then String backslash (String c (escape rest))
      else String c (escape rest)
  end.

Definition quote (s : string) : string :=
  String dquote (escape s +:+ String dquote EmptyString).

Fixpoint join (sep : string) (parts : list string) : string :=
  match parts with
  | [] => EmptyString
  | [p] => p
  | p :: rest => p +:+ sep +:+ join sep rest
  end.

(** Compact JSON text, without spaces. *)
Fixpoint json_text (j : json) : string :=
  match j with
  | JNull => "null"
  | JBool true => "true"
  | JBool false => "false"
  | JInt n => pretty n
  | JStr s => quote s
  | JArr xs => "[" +:+ join "," (List.map json_text xs) +:+ "]"
  | JObj kvs =>
      "{" +:+ join "," (List.map (fun kv => quote (fst kv) +:+ ":" +:+ json_text (snd kv)) kvs)
          +:+ "}"
  end.

(** Decoding by table: the document of [known] whose text is [s]. *)
Fixpoint loads_among (known : list json) (s : string) : option json :=
  match known with
  | [] => None
  | j :: rest => if String.eqb (json_text j) s then Some j else loads_among rest s
  end.

Definition library (known : list json) : json_library := {|
  orjson_dumps := fun v => encode (json_text v);
  ujson_dumps := json_text;
  orjson_loads := loads_among known;
  ujson_loads := loads_among known
|}.

(** *** The two libraries as they write strings

    On values whose strings are printable ASCII, [orjson.dumps] writes
    the compact text above, and [ujson.dumps], with its default
    [escape_forward_slashes=True], writes the same text but for a
    backslash before every forward slash.  Both [loads] read either
    text. *)
Fixpoint ujson_escape (s : string) : string :=
  match s with
  | EmptyString => EmptyString
  | String c rest =>
      if (Ascii.eqb c dquote || Ascii.eqb c backslash || Ascii.eqb c "/")%bool
      then String backslash (String c (ujson_escape rest))
      else String c (ujson_escape rest)
  end.

Definition ujson_quote (s : string) : string :=
  String dquote (ujson_escape s +:+ String dquote EmptyString).

Fixpoint ujson_text (j : json) : string :=
  match j with
  | JNull => "null"
  | JBool true => "true"
  | JBool false => "false"
  | JInt n => pretty n
  | JStr s => ujson_quote s
  | JArr xs => "[" +:+ join "," (List.map ujson_text xs) +:+ "]"
  | JObj kvs =>
      "{" +:+ join "," (List.map (fun kv => ujson_quote (fst kv) +:+ ":" +:+ ujson_text (snd kv))
                          kvs)
          +:+ "}"
  end.

Fixpoint loads_either (known : list json) (s : string) : option json :=
  match known with
  | [] => None
  | j :: rest =>
      if (String.eqb (json_text j) s || String.eqb (ujson_text j) s)%bool then Some j
      else loads_either rest s
  end.

Definition installed (known : list json) : json_library := {|
  orjson_dumps := fun v => encode (json_text v);
  ujson_dumps := ujson_text;
  orjson_loads := loads_either known;
  ujson_loads := loads_either known
|}.

End Reference.

(** ** Identifiers and what [base.py] provides *)

(** Modelled from the spec: the class [IdentifierData] of
    [redbot/core/drivers/base.py], an immutable record of the address of a
    configuration value. *)
Record IdentifierData : Type := {
  owner_namespace : string;
  instance_id : string;
  category : string;
  primary_key : list string;
  secondary_key : list string;
  primary_key_length : nat;
  is_custom : bool
}.

(** Modelled from the spec: the constructor of [IdentifierData], which
    fails, with a construction error, on an empty owner namespace and on
    a primary key longer than the primary-key length of the category. *)
Definition construction_error : exn := OtherException "construction error".

Definition can_be_constructed (i : IdentifierData) : bool :=
  (negb (String.eqb (owner_namespace i) EmptyString)
   && Nat.leb (length (primary_key i)) (primary_key_length i))%bool.

Definition construct (i : IdentifierData) : outcome IdentifierData :=
  if can_be_constructed i then Ret i else Raise construction_error.

(** What the driver takes from its base class, from [ConfigCategory] and
    from Python itself:
    - [py_str] is the builtin [str] on a decoded JSON value;
    - [to_dict] is [IdentifierData.to_dict];
    - [get_pkey_info] is [ConfigCategory.get_pkey_info], which returns the
      two trailing arguments of the [IdentifierData] constructor;
    - [_split_primary_key] is [BaseDriver._split_primary_key].
    The two helpers of [base.py] may raise. *)
Class Base : Type := {
  py_str : json -> string;
  to_dict : IdentifierData -> json;
  registry : Type;
  get_pkey_info : string -> registry -> outcome (nat * bool);
  _split_primary_key : string -> registry -> json -> outcome (list (list string * json))
}.

(** ** HTTP *)

Inductive http_method : Type := POST | PUT.

(** [aiohttp.BytesPayload]: the bytes of a request body with its
    content type and encoding. *)
Record BytesPayload : Type := {
  payload_value : list Byte.byte;
  payload_content_type : string;
  payload_encoding : string
}.

(** The arguments of one [session.post]/[session.put] call, under the
    keywords the source writes: [url], [headers], [param] (so spelt in
    [delete_all_data]) and [data].  The keyword [json_serialize], which
    every call passes with the same value, is left out. *)
Record request : Type := {
  req_method : http_method;
  req_url : string;
  req_headers : list (string * option string);
  req_param : list (string * json);
  req_data : option BytesPayload
}.

Record response : Type := {
  status : Z;
  body : string
}.

(** The [aiohttp.ClientSession] with the remote service behind it: a
    request changes the state of the network and yields a response or
    raises. *)
Class Session : Type := {
  Net : Type;
  http : request -> Net -> outcome response * Net
}.

(** The module-level state left by the [try: import orjson] block:
    the installed libraries and whether [orjson] is the module
    ([true]) or [None] ([false]). *)
Class Codec : Type := {
  lib : json_library;
  orjson : bool
}.

(** ** Logging *)

Inductive log_record : Type :=
| LogInfo (msg : string)
| LogCritical (ident_data : IdentifierData) (data : json) (exc_info : exn).

Definition is_critical (r : log_record) : bool :=
  match r with LogCritical _ _ _ => true | LogInfo _ => false end.

(** ** The state a driver operation runs in

    [exchanges] is the history of the calls made on the session, each
    with what it produced; [log] is what was handed to the logger. *)
Record world `{Session} : Type := {
  net : Net;
  exchanges : list (request * outcome response);
  log : list log_record
}.

(** A computation that may raise and that changes the world. *)
Definition M `{Session} (A : Type) : Type := world -> outcome A * world.

#[export] Instance M_ret `{Session} : MRet M := fun A a w => (Ret a, w).

#[export] Instance M_bind `{Session} : MBind M := fun A B f m w =>
  match m w with
  | (Ret a, w') => f a w'
  | (Raise e, w') => (Raise e, w')
  end.

Definition raise `{Session} {A} (e : exn) : M A := fun w => (Raise e, w).

Definition lift `{Session} {A} (o : outcome A) : M A := fun w => (o, w).

(** [try: body except Exception as err: handler(err)] *)
Definition try_except `{Session} {A} (body : M A) (handler : exn -> M A) : M A :=
  fun w =>
    match body w with
    | (Ret a, w') => (Ret a, w')
    | (Raise err, w') => handler err w'
    end.

Definition emit `{Session} (r : log_record) : M unit := fun w =>
  (Ret tt, {| net := net w; exchanges := exchanges w; log := log w ++ [r] |}).

(** [async with session.post(...)/put(...) as response] *)
Definition session_request `{Session} (req : request) : M response := fun w =>
  let (r, n) := http req (net w) in
  (r, {| net := n; exchanges := exchanges w ++ [(req, r)]; log := log w |}).

(** ** Strings *)

(** [s.replace(old, new)] for a non-empty [old]: every occurrence of
    [old], scanning from the left, becomes [new]; [skip] counts the
    characters of a matched occurrence still to be dropped. *)
Fixpoint replace_from (old new : string) (skip : nat) (s : string) : string :=
  match s with
  | EmptyString => EmptyString
  | String c rest =>
      match skip with
      | S k => replace_from old new k rest
      | O =>
          if String.prefix old s
          then new +:+ replace_from old new (Nat.pred (String.length old)) rest
          else String c (replace_from old new 0 rest)
      end
  end.

Definition replace (s old new : string) : string := replace_from old new 0 s.

(** ** apidriver.py *)
Module APIDriver.

Definition _GET_ENDPOINT : string := "{base}/config/get".
Definition _AITER_COGS_ENDPOINT : string := "{base}/config/cogs".
Definition _SET_ENDPOINT : string := "{base}/config/set".
Definition _INCREMENT_ENDPOINT : string := "{base}/config/increment".
Definition _TOGGLE_ENDPOINT : string := "{base}/config/toggle".
Definition _CLEAR_ENDPOINT : string := "{base}/config/clear".
Definition _CLEAR_ALL_ENDPOINT : string := "{base}/config/clear_all".

(** [json_loads], bound by the import block. *)
Definition json_loads `{Codec} : string -> option json :=
  if orjson then orjson_loads lib else ujson_loads lib.

(** [APIDriver._load_to_string] *)
Definition _load_to_string `{Codec} (value : pyval) : pyval :=
  if negb orjson then value
  else if hasattr_decode value then
    match value with
    | PBytes b => PJson (JStr (decode b))
    | PJson _ => value
    end
  else value.

(** [APIDriver._dump_to_string] *)
Definition _dump_to_string `{Codec} (value : json) : string :=
  if negb orjson then ujson_dumps lib value
  else decode (orjson_dumps lib value).

(** [JsonPayload(value)], with the default [encoding], [content_type] and
    [dumps] (which is [json_dumps], the [dumps] of the selected codec). *)
Definition JsonPayload `{Codec} (value : json) : BytesPayload :=
  if orjson then
    {| payload_value := orjson_dumps lib value;
       payload_content_type := "application/json";
       payload_encoding := "utf-8" |}
  else
    {| payload_value := encode (ujson_dumps lib value);
       payload_content_type := "application/json";
       payload_encoding := "utf-8" |}.

(** The driver: the class attributes set by [initialize] and the two
    instance attributes of [BaseDriver]. *)
Record t : Type := {
  token : option string;
  base_url : string;
  cog_name : string;
  unique_cog_identifier : string
}.

(** [await response.json(loads=json_loads)]: [loads] applied to the text
    of the body; a body that is not a document makes the call raise.
    What [aiohttp] does before it calls [loads] (the check of the
    Content-Type header, [None] for an empty body) is not modelled: a
    [response] is a status and a body that reaches [loads]. *)
Definition response_json `{Codec} `{Session} (r : response) : M json :=
  match json_loads (body r) with
  | Some j => mret j
  | None => raise JSONDecodeError
  end.

(** [value.get(key)] on an arbitrary value *)
Definition py_get `{Session} (value : pyval) (key : string) : M json :=
  match value with
  | PJson (JObj kvs) => mret (dict_get kvs key)
  | _ => raise AttributeError
  end.

Definition authorization (self : t) : list (string * option string) :=
  [("Authorization", token self)].

(** The tail shared by [set], [clear], [inc], [toggle] and
    [delete_all_data] once the request is made. *)
Definition value_or_config_error `{Base} `{Codec} `{Session} (r : response) : M json :=
  response_output ← response_json r;
  if Z.eqb (status r) 200 then
    py_get (_load_to_string (PJson response_output)) "value"
  else raise (ConfigError (py_str response_output)).

Definition get_request `{Base} `{Codec} (self : t) (identifier_data : IdentifierData) : request :=
  let full_identifiers := to_dict identifier_data in
  {| req_method := POST;
     req_url := replace _GET_ENDPOINT "{base}" (base_url self);
     req_headers := authorization self;
     req_param := [];
     req_data := Some (JsonPayload (JObj [("identifier", full_identifiers)])) |}.

Definition get `{Base} `{Codec} `{Session} (self : t) (identifier_data : IdentifierData)
  : M pyval :=
  r ← session_request (get_request self identifier_data);
  if Z.eqb (status r) 200 then
    j ← response_json r;
    mret (_load_to_string (PJson j))
  else raise KeyError.

Definition set_payload `{Base} `{Codec} (identifier_data : IdentifierData) (value : json) : json :=
  let full_identifiers := to_dict identifier_data in
  JObj [("identifier", full_identifiers); ("config_data", JStr (_dump_to_string value))].

Definition set_request `{Base} `{Codec} (self : t) (identifier_data : IdentifierData)
  (value : json) : request :=
  {| req_method := PUT;
     req_url := replace _SET_ENDPOINT "{base}" (base_url self);
     req_headers := authorization self;
     req_param := [];
     req_data := Some (JsonPayload (set_payload identifier_data value)) |}.

Definition set `{Base} `{Codec} `{Session} (self : t) (identifier_data : IdentifierData)
  (value : json) : M json :=
  r ← session_request (set_request self identifier_data value);
  value_or_config_error r.

Definition clear_request `{Base} `{Codec} (self : t) (identifier_data : IdentifierData) : request :=
  let full_identifiers := to_dict identifier_data in
  {| req_method := PUT;
     req_url := replace _CLEAR_ENDPOINT "{base}" (base_url self);
     req_headers := authorization self;
     req_param := [];
     req_data := Some (JsonPayload (JObj [("identifier", full_identifiers)])) |}.

Definition clear `{Base} `{Codec} `{Session} (self : t) (identifier_data : IdentifierData)
  : M json :=
  r ← session_request (clear_request self identifier_data);
  value_or_config_error r.

(** The body of [inc] and of [toggle] *)
Definition update_payload `{Base} `{Codec} (identifier_data : IdentifierData)
  (value default : json) : json :=
  let full_identifiers := to_dict identifier_data in
  JObj [("identifier", full_identifiers);
        ("config_data", JStr (_dump_to_string value));
        ("default", JStr (_dump_to_string default))].

Definition inc_request `{Base} `{Codec} (self : t) (identifier_data : IdentifierData)
  (value default : Z) : request :=
  {| req_method := PUT;
     req_url := replace _INCREMENT_ENDPOINT "{base}" (base_url self);
     req_headers := authorization self;
     req_param := [];
     req_data := Some (JsonPayload (update_payload identifier_data (JInt value) (JInt default))) |}.

Definition inc `{Base} `{Codec} `{Session} (self : t) (identifier_data : IdentifierData)
  (value default : Z) : M json :=
  r ← session_request (inc_request self identifier_data value default);
  value_or_config_error r.

(** An [Optional[bool]] argument as the value handed to the codec. *)
Definition of_optional_bool (value : option bool) : json :=
  match value with
  | Some b => JBool b
  | None => JNull
  end.

Definition toggle_request `{Base} `{Codec} (self : t) (identifier_data : IdentifierData)
  (value default : option bool) : request :=
  {| req_method := PUT;
     req_url := replace _TOGGLE_ENDPOINT "{base}" (base_url self);
     req_headers := authorization self;
     req_param := [];
     req_data := Some (JsonPayload (update_payload identifier_data
                                      (of_optional_bool value) (of_optional_bool default))) |}.

Definition toggle `{Base} `{Codec} `{Session} (self : t) (identifier_data : IdentifierData)
  (value default : option bool) : M json :=
  r ← session_request (toggle_request self identifier_data value default);
  value_or_config_error r.

Definition delete_all_data_request (self : t) : request :=
  {| req_method := PUT;
     req_url := replace _CLEAR_ALL_ENDPOINT "{base}" (base_url self);
     req_headers := authorization self;
     req_param := [("i_want_to_do_this", JBool true)];
     req_data := None |}.

(** [delete_all_data(cls, **kwargs)]: [kwargs] is what the caller passed. *)
Definition delete_all_data `{Base} `{Codec} `{Session} (cls : t) (kwargs : list (string * json))
  : M json :=
  r ← session_request (delete_all_data_request cls);
  value_or_config_error r.

(** The arguments of the [IdentifierData(...)] call of the migration:
    the driver's own names, the category, a primary key, no secondary key,
    and the pair returned by [get_pkey_info] as the two trailing
    arguments.  The call itself is [construct] of this record. *)
Definition migration_identifier (self : t) (category : string) (pkey : list string)
  (pkey_info : nat * bool) : IdentifierData :=
  {| owner_namespace := cog_name self;
     instance_id := unique_cog_identifier self;
     category := category;
     primary_key := pkey;
     secondary_key := [];
     primary_key_length := fst pkey_info;
     is_custom := snd pkey_info |}.

(** The [for pkey, data in splitted_pkey] loop of [_individual_migrate]. *)
Fixpoint migrate_leaves `{Base} `{Codec} `{Session} (self : t) (category : string)
  (custom_group_data : registry) (splitted_pkey : list (list string * json)) : M unit :=
  match splitted_pkey with
  | [] => mret tt
  | (pkey, data) :: rest =>
      pkey_info ← lift (get_pkey_info category custom_group_data);
      ident_data ← lift (construct (migration_identifier self category pkey pkey_info));
      _ ← try_except
            (_ ← set self ident_data data; mret tt)
            (fun err => emit (LogCritical ident_data data err));
      migrate_leaves self category custom_group_data rest
  end.

Definition _individual_migrate `{Base} `{Codec} `{Session} (self : t) (category : string)
  (custom_group_data : registry) (all_data : json) : M unit :=
  splitted_pkey ← lift (_split_primary_key category custom_group_data all_data);
  migrate_leaves self category custom_group_data splitted_pkey.

(** The [for category, all_data in cog_data] loop of [import_data]. *)
Fixpoint import_categories `{Base} `{Codec} `{Session} (self : t)
  (cog_data : list (string * json)) (custom_group_data : registry) : M unit :=
  match cog_data with
  | [] => mret tt
  | (category, all_data) :: rest =>
      _ ← emit (LogInfo ("Converting cog category: " +:+ category));
      pkey_info ← lift (get_pkey_info category custom_group_data);
      ident_data ← lift (construct (migration_identifier self category [] pkey_info));
      _ ← try_except
            (_ ← set self ident_data all_data; mret tt)
            (fun _ => _individual_migrate self category custom_group_data all_data);
      import_categories self rest custom_group_data
  end.

Definition import_data `{Base} `{Codec} `{Session} (self : t)
  (cog_data : list (string * json)) (custom_group_data : registry) : M unit :=
  _ ← emit (LogInfo ("Converting Cog: " +:+ cog_name self));
  import_categories self cog_data custom_group_data.

(** [aiter_cogs]: one POST on the listing endpoint; the decoded body is
    returned without a look at the status. *)
Definition aiter_cogs_request (cls : t) : request :=
  {| req_method := POST;
     req_url := replace _AITER_COGS_ENDPOINT "{base}" (base_url cls);
     req_headers := authorization cls;
     req_param := [];
     req_data := None |}.

Definition aiter_cogs `{Codec} `{Session} (cls : t) : M pyval :=
  r ← session_request (aiter_cogs_request cls);
  response_output ← response_json r;
  mret (_load_to_string (PJson response_output)).

(** [s.endswith("/")] *)
Fixpoint endswith_slash (s : string) : bool :=
  match s with
  | EmptyString => false
  | String c EmptyString => Ascii.eqb c "/"
  | String _ rest => endswith_slash rest
  end.

(** [s[:-1]] *)
Fixpoint without_last (s : string) : string :=
  match s with
  | EmptyString => EmptyString
  | String _ EmptyString => EmptyString
  | String c rest => String c (without_last rest)
  end.

(** A [str] of ASCII characters only: in the UTF-8 encoding, no byte
    of 128 or more. *)
Fixpoint is_ascii (s : string) : bool :=
  match s with
  | EmptyString => true
  | String c rest => (nat_of_ascii c <? 128)%nat && is_ascii rest
  end.

(** [secrets.compare_digest(a, b)] on two [str]: equality, and a
    [TypeError] when either holds a non-ASCII character. *)
Definition compare_digest (a b : string) : outcome bool :=
  if is_ascii a && is_ascii b then Ret (String.eqb a b)
  else Raise (OtherException "TypeError").

(** [get_config_details()], as a function of the line typed at the
    [input] prompt and of the password typed at the [getpass] prompt; the
    result is the dictionary with the keys [host] and [password]. *)
Definition get_config_details (typed_host typed_password : string)
  : outcome (gmap string json) :=
  let host :=
    match typed_host with
    | EmptyString => "http://localhost:8000"
    | _ => typed_host
    end in
  let host := if endswith_slash host then without_last host else host in
  match compare_digest typed_password "NONE" with
  | Raise e => Raise e
  | Ret is_none =>
      let password := if is_none then JNull else JStr typed_password in
      Ret (<["password" := password]> (<["host" := JStr host]> ∅))
  end.

(** The class attributes [initialize] sets; [cls_session] tells that an
    [aiohttp.ClientSession] has been created. *)
Record class_attributes : Type := {
  cls_token : json;
  cls_base_url : json;
  cls_session : bool
}.

(** [initialize(cls, **storage_details)] *)
Definition initialize (storage_details : gmap string json) : outcome class_attributes :=
  match storage_details !! "host" with
  | None => Raise KeyError
  | Some host =>
      match storage_details !! "password" with
      | None => Raise KeyError
      | Some password =>
          Ret {| cls_token := password; cls_base_url := host; cls_session := true |}
      end
  end.

End APIDriver.

(** ** managed_lavalink_auto_update.py *)
Module LavalinkAutoUpdateManager.

(** The [Config] object the manager wraps ([redbot.core.Config], an
    external collaborator): its state and the four things the manager does
    with it.
    - [autoupdate_call] is [await self._config.lavalink.autoupdate()];
    - [autoupdate_set v] is [await self._config.lavalink.autoupdate.set(v)];
    - [autoupdate_clear] is [await self._config.lavalink.autoupdate.clear()];
    - [defaults] is the dictionary [self._config.defaults], read locally. *)
Class Config : Type := {
  Store : Type;
  autoupdate_call : Store -> outcome bool * Store;
  autoupdate_set : bool -> Store -> outcome unit * Store;
  autoupdate_clear : Store -> outcome unit * Store;
  defaults : Store -> gmap string (gmap string (gmap string bool))
}.

(** The awaited calls on the [Config] object, for counting them. *)
Inductive config_call : Type :=
| CallRead
| CallSet (set_to : bool)
| CallClear.

(** The manager.  [_cached_global : Dict[None, bool]] has keys of the
    type of [None], here [unit]; [config_calls] records the awaited calls
    on [_config], oldest first. *)
Record t `{Config} : Type := {
  _config : Store;
  enable_cache : bool;
  _cached_global : gmap unit bool;
  config_calls : list config_call
}.

(** [__init__(self, bot, config, enable_cache=True)] *)
Definition init `{Config} (config : Store) (enable_cache : bool) : t :=
  {| _config := config;
     enable_cache := enable_cache;
     _cached_global := ∅;
     config_calls := [] |}.

(** [None in self._cached_global] *)
Definition none_in_cached_global `{Config} (self : t) : bool :=
  bool_decide (is_Some (_cached_global self !! tt)).

Definition get_global `{Config} (self : t) : outcome bool * t :=
  if enable_cache self && none_in_cached_global self then
    match _cached_global self !! tt with
    | Some ret => (Ret ret, self)
    | None => (Raise KeyError, self)
    end
  else
    match autoupdate_call (_config self) with
    | (Ret ret, config) =>
        (Ret ret,
         {| _config := config;
            enable_cache := enable_cache self;
            _cached_global := <[tt := ret]> (_cached_global self);
            config_calls := config_calls self ++ [CallRead] |})
    | (Raise e, config) =>
        (Raise e,
         {| _config := config;
            enable_cache := enable_cache self;
            _cached_global := _cached_global self;
            config_calls := config_calls self ++ [CallRead] |})
    end.

(** [self._config.defaults["GLOBAL"]["lavalink"]["autoupdate"]] *)
Definition declared_default `{Config} (config : Store) : option bool :=
  match defaults config !! "GLOBAL" with
  | Some g =>
      match g !! "lavalink" with
      | Some l => l !! "autoupdate"
      | None => None
      end
  | None => None
  end.

Definition set_global `{Config} (self : t) (set_to : option bool) : outcome unit * t :=
  match set_to with
  | Some v =>
      match autoupdate_set v (_config self) with
      | (Ret _, config) =>
          (Ret tt,
           {| _config := config;
              enable_cache := enable_cache self;
              _cached_global := <[tt := v]> (_cached_global self);
              config_calls := config_calls self ++ [CallSet v] |})
      | (Raise e, config) =>
          (Raise e,
           {| _config := config;
              enable_cache := enable_cache self;
              _cached_global := _cached_global self;
              config_calls := config_calls self ++ [CallSet v] |})
      end
  | None =>
      match autoupdate_clear (_config self) with
      | (Ret _, config) =>
          match declared_default config with
          | Some d =>
              (Ret tt,
               {| _config := config;
                  enable_cache := enable_cache self;
                  _cached_global := <[tt := d]> (_cached_global self);
                  config_calls := config_calls self ++ [CallClear] |})
          | None =>
              (Raise KeyError,
               {| _config := config;
                  enable_cache := enable_cache self;
                  _cached_global := _cached_global self;
                  config_calls := config_calls self ++ [CallClear] |})
          end
      | (Raise e, config) =>
          (Raise e,
           {| _config := config;
              enable_cache := enable_cache self;
              _cached_global := _cached_global self;
              config_calls := config_calls self ++ [CallClear] |})
      end
  end.

(** [get_context_value(self, guild)]; a [discord.Guild] is opaque. *)
Definition get_context_value `{Config} {Guild : Type} (self : t) (guild : Guild)
  : outcome bool * t :=
  get_global self.

Definition reset_globals `{Config} (self : t) : t :=
  if none_in_cached_global self then
    {| _config := _config self;
       enable_cache := enable_cache self;
       _cached_global := delete tt (_cached_global self);
       config_calls := config_calls self |}
  else self.

(** A store for running the manager: the stored flag, if any, and the
    registered defaults; a read yields the stored flag, else the declared
    default. *)
Record simple_store : Type := {
  stored : option bool;
  registered : gmap string (gmap string (gmap string bool))
}.

Definition simple_default (s : simple_store) : option bool :=
  match registered s !! "GLOBAL" with
  | Some g =>
      match g !! "lavalink" with
      | Some l => l !! "autoupdate"
      | None => None
      end
  | None => None
  end.

Definition simple_config : Config := {|
  Store := simple_store;
  autoupdate_call := fun s =>
    match stored s with
    | Some b => (Ret b, s)
    | None =>
        match simple_default s with
        | Some d => (Ret d, s)
        | None => (Raise AttributeError, s)
        end
    end;
  autoupdate_set := fun v s => (Ret tt, {| stored := Some v; registered := registered s |});
  autoupdate_clear := fun s => (Ret tt, {| stored := None; registered := registered s |});
  defaults := registered
|}.

(** The defaults in which [lavalink.autoupdate] is registered as [d]. *)
Definition registered_with (d : bool) : gmap string (gmap string (gmap string bool)) :=
  {[ "GLOBAL" := {[ "lavalink" := {[ "autoupdate" := d ]} ]} ]}.

End LavalinkAutoUpdateManager.

(** The world once [req] has been handed to the session. *)
Definition after_request `{Session} (req : request) (w : world) : world :=
  {| net := snd (http req (net w));
     exchanges := exchanges w ++ [(req, fst (http req (net w)))];
     log := log w |}.

(** ** What an exchange makes of [set]

    [set_result o] is what the tail of [set] (and of [clear], [inc],
    [toggle], [delete_all_data]) does with the outcome [o] of the call on
    the session; it does not depend on the world. *)
Definition set_result `{Base} `{Codec} (o : outcome response) : outcome json :=
  match o with
  | Raise e => Raise e
  | Ret r =>
      match APIDriver.json_loads (body r) with
      | None => Raise JSONDecodeError
      | Some response_output =>
          if Z.eqb (status r) 200 then
            match response_output with
            | JObj kvs => Ret (dict_get kvs "value")
            | _ => Raise AttributeError
            end
          else Raise (ConfigError (py_str response_output))
      end
  end.

(** ** The migration protocol, in the words of the specification

    For each category in turn: one bulk [set] with an empty primary key;
    when that bulk [set] fails, the payload is split by the category's
    declared primary-key arity and each leaf gets one [set] of its own; a
    leaf whose [set] fails is logged at level critical and skipped.
    [xs] is the sequence of calls made on the session, [crit] the
    sequence of critical log records. *)

(** The address of a whole category: the empty primary key. *)
Definition bulk_identifier (self : APIDriver.t) (category : string) (pkey_info : nat * bool)
  : IdentifierData :=
  {| owner_namespace := APIDriver.cog_name self;
     instance_id := APIDriver.unique_cog_identifier self;
     category := category;
     primary_key := [];
     secondary_key := [];
     primary_key_length := fst pkey_info;
     is_custom := snd pkey_info |}.








(** The two outcomes of the import block for the same installed
    libraries. *)
Definition using_orjson (l : json_library) : Codec := {| lib := l; orjson := true |}.
Definition using_ujson (l : json_library) : Codec := {| lib := l; orjson := false |}.

(** ** A concrete environment, to run the driver *)
Module Demo.

(** The builtin [str] on decoded values whose strings need no escape. *)
Fixpoint py_repr (j : json) : string :=
  match j with
  | JNull => "None"
  | JBool true => "True"
  | JBool false => "False"
  | JInt n => pretty n
  | JStr s => "'" +:+ s +:+ "'"
  | JArr xs => "[" +:+ Reference.join ", " (List.map py_repr xs) +:+ "]"
  | JObj kvs =>
      "{" +:+ Reference.join ", "
                (List.map (fun kv => "'" +:+ fst kv +:+ "': " +:+ py_repr (snd kv)) kvs)
          +:+ "}"
  end.

Definition py_str (j : json) : string :=
  match j with
  | JStr s => s
  | _ => py_repr j
  end.

(** Modelled from the spec: [IdentifierData.to_dict] of [base.py], the
    ordered list of path segments of the address. *)
Definition to_dict (i : IdentifierData) : json :=
  JArr (List.map JStr
          (owner_namespace i :: instance_id i :: category i
             :: primary_key i ++ secondary_key i)).

(** Modelled from the spec: [ConfigCategory.get_pkey_info] of [base.py], a
    lookup in the registry that maps a category name to its primary-key
    arity and whether it is custom. *)
Fixpoint get_pkey_info (category : string) (custom_group_data : list (string * (nat * bool)))
  : outcome (nat * bool) :=
  match custom_group_data with
  | [] => Raise KeyError
  | (name, info) :: rest =>
      if String.eqb name category then Ret info else get_pkey_info category rest
  end.

(** Modelled from the spec: [BaseDriver._split_primary_key] of [base.py],
    the leaves of a payload found under [arity] levels of keys. *)
Fixpoint split_levels (arity : nat) (data : json) : outcome (list (list string * json)) :=
  match arity with
  | O => Ret [([], data)]
  | S k =>
      match data with
      | JObj kvs =>
          List.fold_right
            (fun kv acc =>
               match split_levels k (snd kv), acc with
               | Ret leaves, Ret others =>
                   Ret (List.map (fun leaf => (fst kv :: fst leaf, snd leaf)) leaves ++ others)
               | Raise e, _ => Raise e
               | _, Raise e => Raise e
               end)
            (Ret []) kvs
      | _ => Raise AttributeError
      end
  end.

Definition _split_primary_key (category : string)
  (custom_group_data : list (string * (nat * bool))) (data : json)
  : outcome (list (list string * json)) :=
  match get_pkey_info category custom_group_data with
  | Ret info => split_levels (fst info) data
  | Raise e => Raise e
  end.

Definition base : Base :=
  Build_Base py_str to_dict (list (string * (nat * bool))) get_pkey_info _split_primary_key.

(** A scripted service: the state is the list of the outcomes still to be
    played, one per request; once the script is over the connection
    fails. *)
Definition scripted : Session := {|
  Net := list (outcome response);
  http := fun _ script =>
    match script with
    | o :: rest => (o, rest)
    | [] => (Raise (OtherException "ClientConnectionError"), [])
    end
|}.

(** A session that, like [aiohttp.ClientSession], takes no keyword
    [param] (the keyword for query parameters is [params]): a call that
    passes one raises [TypeError] and reaches no service. *)
Definition strict : Session := {|
  Net := list (outcome response);
  http := fun req script =>
    match req_param req with
    | _ :: _ => (Raise (OtherException "TypeError"), script)
    | [] =>
        match script with
        | o :: rest => (o, rest)
        | [] => (Raise (OtherException "ClientConnectionError"), [])
        end
    end
|}.

Definition start (script : list (outcome response)) : @world scripted :=
  @Build_world scripted script [] [].

(** The documents the replies below carry. *)
Definition value_null : json := JObj [("value", JNull)].
Definition value_true : json := JObj [("value", JBool true)].
Definition detail_denied : json := JObj [("detail", JStr "denied")].

Definition known : list json := [value_null; value_true; detail_denied; JInt 7].

(** A reply whose mapping holds [value] after another key. *)
Definition detail_then_value : json :=
  JObj [("detail", JStr "denied"); ("value", JBool true)].

Definition with_orjson_more : Codec :=
  using_orjson (Reference.library (known ++ [detail_then_value])).

Definition with_orjson : Codec := using_orjson (Reference.library known).
Definition with_ujson : Codec := using_ujson (Reference.library known).

Definition reply (code : Z) (j : json) : response :=
  {| status := code; body := Reference.json_text j |}.

Definition driver : APIDriver.t := {|
  APIDriver.token := Some "secret";
  APIDriver.base_url := "http://localhost:8000";
  APIDriver.cog_name := "music";
  APIDriver.unique_cog_identifier := "1"
|}.

Definition global_flag : IdentifierData := {|
  owner_namespace := "music";
  instance_id := "1";
  category := "GLOBAL";
  primary_key := [];
  secondary_key := [];
  primary_key_length := 0;
  is_custom := false
|}.

(** Two guilds' worth of data of the category [GUILD], of arity one. *)
Definition categories : list (string * (nat * bool)) :=
  [("GLOBAL", (0%nat, false)); ("GUILD", (1%nat, false))].

Definition guild_data : json :=
  JObj [("100", JObj [("volume", JInt 50)]); ("200", JObj [("volume", JInt 70)])].

End Demo.

(** ** The write operations of the driver, as one family

    The five operations that end in the same way, each with its
    arguments, the request it builds and its run. *)
Inductive write_call : Type :=
| DoSet (identifier_data : IdentifierData) (value : json)
| DoClear (identifier_data : IdentifierData)
| DoInc (identifier_data : IdentifierData) (value default : Z)
| DoToggle (identifier_data : IdentifierData) (value default : option bool)
| DoDeleteAllData (kwargs : list (string * json)).

Definition request_of `{Base} `{Codec} (self : APIDriver.t) (c : write_call) : request :=
  match c with
  | DoSet i v => APIDriver.set_request self i v
  | DoClear i => APIDriver.clear_request self i
  | DoInc i v d => APIDriver.inc_request self i v d
  | DoToggle i v d => APIDriver.toggle_request self i v d
  | DoDeleteAllData _ => APIDriver.delete_all_data_request self
  end.

Definition perform `{Base} `{Codec} `{Session} (self : APIDriver.t) (c : write_call) : M json :=
  match c with
  | DoSet i v => APIDriver.set self i v
  | DoClear i => APIDriver.clear self i
  | DoInc i v d => APIDriver.inc self i v d
  | DoToggle i v d => APIDriver.toggle self i v d
  | DoDeleteAllData kwargs => APIDriver.delete_all_data self kwargs
  end.

(** The values a write operation dumps while it builds its request. *)
Definition dumped_values `{Base} (c : write_call) : list json :=
  match c with
  | DoSet i v => [to_dict i; v]
  | DoClear i => [to_dict i]
  | DoInc i v d => [to_dict i; JInt v; JInt d]
  | DoToggle i v d => [to_dict i; APIDriver.of_optional_bool v; APIDriver.of_optional_bool d]
  | DoDeleteAllData _ => []
  end.

(** A call on the [set] endpoint: a PUT on [/config/set] under the base
    URL that carries the token of the driver and no parameter. *)
Definition is_set_call (self : APIDriver.t) (req : request) : Prop :=
  req_method req = PUT /\
  req_url req = APIDriver.base_url self +:+ "/config/set" /\
  req_headers req = [("Authorization", APIDriver.token self)] /\
  req_param req = [].

(** A service that accepts every request with the same answer. *)
Definition always_answers (r : response) : Session := {|
  Net := unit;
  http := fun _ n => (Ret r, n)
|}.

(** ** tests/conftest.py *)
Module Conftest.

(** The members of [drivers.BackendType] that [conftest.py] names. *)
Inductive BackendType : Type := JSON | POSTGRES | REDIS | SQL.

(** [_get_backend_type()]; [environ] is the process environment, and
    [os.getenv(k)] is the lookup of [k] in it. *)
Definition _get_backend_type (environ : gmap string string) : BackendType :=
  let env_var := environ !! "RED_STORAGE_TYPE" in
  match env_var with
  | Some v =>
      if String.eqb v "postgres" then POSTGRES
      else if String.eqb v "redis" then REDIS
      else if String.eqb v "sql" then SQL
      else JSON
  | None => JSON
  end.

(** The dictionary [storage_details] that [_setup_driver] builds for a
    backend; [int] is the builtin applied to a [str], which may raise.
    A variable that is unset or empty is falsy and gives the default. *)
Definition storage_details (int : string -> outcome Z) (environ : gmap string string)
  (backend_type : BackendType) : outcome (gmap string json) :=
  match backend_type with
  | REDIS =>
      let host :=
        match environ !! "REDIS_HOST" with
        | Some (String c rest) => String c rest
        | _ => "localhost"
        end in
      let port :=
        match environ !! "REDIS_PORT" with
        | Some (String c rest) => int (String c rest)
        | _ => Ret 6379
        end in
      match port with
      | Raise e => Raise e
      | Ret port =>
          let pw := default "NONE" (environ !! "REDIS_PASSWORD") in
          let password := if negb (String.eqb pw "NONE") then JStr pw else JNull in
          let database :=
            match environ !! "REDIS_DATABASE" with
            | Some (String c rest) => int (String c rest)
            | _ => Ret 0
            end in
          match database with
          | Raise e => Raise e
          | Ret database =>
              Ret (<["database" := JInt database]>
                     (<["password" := password]>
                        (<["port" := JInt port]> (<["host" := JStr host]> ∅))))
          end
      end
  | _ => Ret ∅
  end.

End Conftest.

(** * Properties of the remote API driver *)

Lemma decode_encode s : decode (encode s) = s.
Proof. apply string_of_list_byte_of_string. Qed.

Lemma encode_decode b : encode (decode b) = b.
Proof. apply list_byte_of_string_of_list_byte. Qed.

(** The endpoint templates hold [{base}] once, in front. *)
Lemma endpoints_resolved (base_url : string) :
  replace APIDriver._GET_ENDPOINT "{base}" base_url = base_url +:+ "/config/get" /\
  replace APIDriver._SET_ENDPOINT "{base}" base_url = base_url +:+ "/config/set" /\
  replace APIDriver._CLEAR_ENDPOINT "{base}" base_url = base_url +:+ "/config/clear" /\
  replace APIDriver._INCREMENT_ENDPOINT "{base}" base_url = base_url +:+ "/config/increment" /\
  replace APIDriver._TOGGLE_ENDPOINT "{base}" base_url = base_url +:+ "/config/toggle" /\
  replace APIDriver._CLEAR_ALL_ENDPOINT "{base}" base_url = base_url +:+ "/config/clear_all".
Proof. repeat split. Qed.

(** [dict.get] finds the value bound to a key of the mapping. *)
Lemma dict_get_found (before after : list (string * json)) (key : string) (v : json) :
  ~ In key (List.map fst before) ->
  dict_get (before ++ (key, v) :: after) key = v.
Proof.
  induction before as [|[k x] before IH]; simpl; intros Hn.
  - by rewrite String.eqb_refl.
  - destruct (String.eqb_spec k key) as [->|Hne]; [tauto|]. apply IH. tauto.
Qed.

Section Driver.
Context `{B : Base} `{C : Codec} `{S : Session}.

Lemma load_to_string_json (j : json) :
  APIDriver._load_to_string (PJson j) = PJson j.
Proof. unfold APIDriver._load_to_string. by destruct orjson. Qed.

(** The shared tail of the write operations is [set_result]. *)
Lemma value_or_config_error_run (r : response) (w : world) :
  APIDriver.value_or_config_error r w = (set_result (Ret r), w).
Proof.
  unfold APIDriver.value_or_config_error, APIDriver.response_json, set_result.
  unfold mbind, M_bind, mret, M_ret, raise.
  destruct (APIDriver.json_loads (body r)) as [j|]; [|done].
  destruct (Z.eqb (status r) 200); [|done].
  rewrite load_to_string_json. by destruct j.
Qed.

(** One request, then the shared tail. *)
Lemma request_then_tail (req : request) (w : world) :
  (r ← session_request req; APIDriver.value_or_config_error r) w
  = (set_result (fst (http req (net w))), after_request req w).
Proof.
  unfold mbind, M_bind, session_request, after_request.
  destruct (http req (net w)) as [[r|e] n]; simpl; [|done].
  apply value_or_config_error_run.
Qed.

Lemma set_run self i value w :
  APIDriver.set self i value w
  = (set_result (fst (http (APIDriver.set_request self i value) (net w))),
     after_request (APIDriver.set_request self i value) w).
Proof. apply request_then_tail. Qed.

Lemma clear_run self i w :
  APIDriver.clear self i w
  = (set_result (fst (http (APIDriver.clear_request self i) (net w))),
     after_request (APIDriver.clear_request self i) w).
Proof. apply request_then_tail. Qed.

Lemma inc_run self i value default w :
  APIDriver.inc self i value default w
  = (set_result (fst (http (APIDriver.inc_request self i value default) (net w))),
     after_request (APIDriver.inc_request self i value default) w).
Proof. apply request_then_tail. Qed.

Lemma toggle_run self i value default w :
  APIDriver.toggle self i value default w
  = (set_result (fst (http (APIDriver.toggle_request self i value default) (net w))),
     after_request (APIDriver.toggle_request self i value default) w).
Proof. apply request_then_tail. Qed.

Lemma delete_all_data_run cls kwargs w :
  APIDriver.delete_all_data cls kwargs w
  = (set_result (fst (http (APIDriver.delete_all_data_request cls) (net w))),
     after_request (APIDriver.delete_all_data_request cls) w).
Proof. apply request_then_tail. Qed.

Lemma get_run self i w :
  APIDriver.get self i w
  = (match fst (http (APIDriver.get_request self i) (net w)) with
     | Raise e => Raise e
     | Ret r =>
         if Z.eqb (status r) 200 then
           match APIDriver.json_loads (body r) with
           | Some j => Ret (PJson j)
           | None => Raise JSONDecodeError
           end
         else Raise KeyError
     end,
     after_request (APIDriver.get_request self i) w).
Proof.
  unfold APIDriver.get, mbind, M_bind, session_request, after_request.
  destruct (http (APIDriver.get_request self i) (net w)) as [[r|e] n]; simpl; [|done].
  destruct (Z.eqb (status r) 200); [|done].
  unfold APIDriver.response_json.
  destruct (APIDriver.json_loads (body r)) as [j|]; [|done].
  unfold mret, M_ret. by rewrite load_to_string_json.
Qed.

Lemma set_result_non_200 (r : response) (j : json) :
  status r <> 200 ->
  APIDriver.json_loads (body r) = Some j ->
  set_result (Ret r) = Raise (ConfigError (py_str j)).
Proof.
  intros Hs Hj. unfold set_result. rewrite Hj.
  destruct (Z.eqb_spec (status r) 200); [contradiction | done].
Qed.

Lemma set_result_200 (r : response) (kvs : list (string * json)) :
  status r = 200 ->
  APIDriver.json_loads (body r) = Some (JObj kvs) ->
  set_result (Ret r) = Ret (dict_get kvs "value").
Proof.
  intros Hs Hj. unfold set_result. rewrite Hj, Hs. done.
Qed.

(** C1, as amended.  On a response whose status is not 200, [set],
    [clear], [inc] and [toggle] raise [ConfigError] carrying [str] of the
    decoded response body, whatever the status code is; [get] raises
    [KeyError], which carries no text, whatever the body is. *)
Theorem non_200_status_raises (self : APIDriver.t) (identifier_data : IdentifierData)
  (w : world) (r : response) :
  status r <> 200 ->
  (forall j, APIDriver.json_loads (body r) = Some j ->
     (forall value,
        fst (http (APIDriver.set_request self identifier_data value) (net w)) = Ret r ->
        fst (APIDriver.set self identifier_data value w) = Raise (ConfigError (py_str j))) /\
     (fst (http (APIDriver.clear_request self identifier_data) (net w)) = Ret r ->
      fst (APIDriver.clear self identifier_data w) = Raise (ConfigError (py_str j))) /\
     (forall value default,
        fst (http (APIDriver.inc_request self identifier_data value default) (net w)) = Ret r ->
        fst (APIDriver.inc self identifier_data value default w)
        = Raise (ConfigError (py_str j))) /\
     (forall value default,
        fst (http (APIDriver.toggle_request self identifier_data value default) (net w)) = Ret r ->
        fst (APIDriver.toggle self identifier_data value default w)
        = Raise (ConfigError (py_str j)))) /\
  (fst (http (APIDriver.get_request self identifier_data) (net w)) = Ret r ->
   fst (APIDriver.get self identifier_data w) = Raise KeyError).
Proof.
  intros Hs. split.
  - intros j Hj. repeat split; intros.
    + rewrite set_run. simpl. rewrite H. by apply set_result_non_200.
    + rewrite clear_run. simpl. rewrite H. by apply set_result_non_200.
    + rewrite inc_run. simpl. rewrite H. by apply set_result_non_200.
    + rewrite toggle_run. simpl. rewrite H. by apply set_result_non_200.
  - intros H. rewrite get_run. simpl. rewrite H.
    destruct (Z.eqb_spec (status r) 200); [contradiction | done].
Qed.

(** C2, the code on a call without confirmation.  [delete_all_data]
    does not look at its keyword arguments: with or without a
    confirmation from the caller it goes straight to the session call, a
    PUT on the clear-all endpoint that passes [i_want_to_do_this=True]
    under the keyword [param], and it ends as the session call and the
    shared tail end; nothing is rejected for want of a confirmation. *)
Theorem delete_all_data_ignores_kwargs (cls : APIDriver.t) (kwargs : list (string * json))
  (w : world) :
  APIDriver.delete_all_data cls kwargs w
  = (set_result (fst (http (APIDriver.delete_all_data_request cls) (net w))),
     after_request (APIDriver.delete_all_data_request cls) w) /\
  exchanges (snd (APIDriver.delete_all_data cls kwargs w))
  = exchanges w ++ [(APIDriver.delete_all_data_request cls,
                     fst (http (APIDriver.delete_all_data_request cls) (net w)))] /\
  req_param (APIDriver.delete_all_data_request cls) = [("i_want_to_do_this", JBool true)] /\
  req_url (APIDriver.delete_all_data_request cls)
  = APIDriver.base_url cls +:+ "/config/clear_all".
Proof.
  rewrite delete_all_data_run. repeat split.
Qed.

(** C4, as amended.  The body [set] sends is the codec's dump of the
    object with the keys [identifier] and [config_data] only, and the body
    [inc] and [toggle] send has the further key [default]; [config_data]
    and [default] are JSON strings that hold the text [_dump_to_string]
    made of the value. *)
Theorem request_bodies_hold_dumped_text (self : APIDriver.t)
  (identifier_data : IdentifierData) (w : world) :
  (forall value,
     exchanges (snd (APIDriver.set self identifier_data value w))
     = exchanges w ++ [(APIDriver.set_request self identifier_data value,
                        fst (http (APIDriver.set_request self identifier_data value) (net w)))] /\
     req_data (APIDriver.set_request self identifier_data value)
     = Some (APIDriver.JsonPayload
               (JObj [("identifier", to_dict identifier_data);
                      ("config_data", JStr (APIDriver._dump_to_string value))]))) /\
  (forall value default,
     exchanges (snd (APIDriver.inc self identifier_data value default w))
     = exchanges w ++ [(APIDriver.inc_request self identifier_data value default,
                        fst (http (APIDriver.inc_request self identifier_data value default)
                               (net w)))] /\
     req_data (APIDriver.inc_request self identifier_data value default)
     = Some (APIDriver.JsonPayload
               (JObj [("identifier", to_dict identifier_data);
                      ("config_data", JStr (APIDriver._dump_to_string (JInt value)));
                      ("default", JStr (APIDriver._dump_to_string (JInt default)))]))) /\
  (forall value default,
     exchanges (snd (APIDriver.toggle self identifier_data value default w))
     = exchanges w ++ [(APIDriver.toggle_request self identifier_data value default,
                        fst (http (APIDriver.toggle_request self identifier_data value default)
                               (net w)))] /\
     req_data (APIDriver.toggle_request self identifier_data value default)
     = Some (APIDriver.JsonPayload
               (JObj [("identifier", to_dict identifier_data);
                      ("config_data",
                       JStr (APIDriver._dump_to_string (APIDriver.of_optional_bool value)));
                      ("default",
                       JStr (APIDriver._dump_to_string (APIDriver.of_optional_bool default)))]))).
Proof.
  repeat split.
  - by rewrite set_run.
  - by rewrite inc_run.
  - by rewrite toggle_run.
Qed.

(** C5.  On a response of status 200 whose body the codec decodes to [j],
    [get] returns [j] itself; when [j] is a mapping that binds the key
    [value] to [v], [set], [clear], [inc] and [toggle] return [v],
    whatever else the mapping holds before and after that key. *)
Theorem status_200_results (self : APIDriver.t) (identifier_data : IdentifierData)
  (w : world) (r : response) (j : json) :
  status r = 200 ->
  APIDriver.json_loads (body r) = Some j ->
  (fst (http (APIDriver.get_request self identifier_data) (net w)) = Ret r ->
   fst (APIDriver.get self identifier_data w) = Ret (PJson j)) /\
  (forall before v after,
     j = JObj (before ++ ("value", v) :: after) ->
     ~ In "value" (List.map fst before) ->
     (forall value,
        fst (http (APIDriver.set_request self identifier_data value) (net w)) = Ret r ->
        fst (APIDriver.set self identifier_data value w) = Ret v) /\
     (fst (http (APIDriver.clear_request self identifier_data) (net w)) = Ret r ->
      fst (APIDriver.clear self identifier_data w) = Ret v) /\
     (forall value default,
        fst (http (APIDriver.inc_request self identifier_data value default) (net w)) = Ret r ->
        fst (APIDriver.inc self identifier_data value default w) = Ret v) /\
     (forall value default,
        fst (http (APIDriver.toggle_request self identifier_data value default) (net w)) = Ret r ->
        fst (APIDriver.toggle self identifier_data value default w) = Ret v)).
Proof.
  intros Hs Hj. split.
  - intros H. rewrite get_run. simpl. rewrite H, Hs, Hj. done.
  - intros before v after -> Hn.
    assert (Hv : set_result (Ret r) = Ret v).
    { rewrite (set_result_200 _ _ Hs Hj). by rewrite dict_get_found. }
    repeat split; intros.
    + rewrite set_run. simpl. by rewrite H.
    + rewrite clear_run. simpl. by rewrite H.
    + rewrite inc_run. simpl. by rewrite H.
    + rewrite toggle_run. simpl. by rewrite H.
Qed.

End Driver.

(** ** The migration *)
Section Migration.
Context `{B : Base} `{C : Codec} `{S : Session}.


(** [try: await self.set(...) except Exception as err: handler(err)] *)
Lemma try_set_run self i value (handler : exn -> M unit) w :
  try_except (_ ← APIDriver.set self i value; mret tt) handler w
  = match set_result (fst (http (APIDriver.set_request self i value) (net w))) with
    | Ret _ => (Ret tt, after_request (APIDriver.set_request self i value) w)
    | Raise err => handler err (after_request (APIDriver.set_request self i value) w)
    end.
Proof.
  unfold try_except, mbind, M_bind. rewrite set_run.
  by destruct (set_result _).
Qed.

Lemma migrate_leaves_cons self category custom_group_data pkey data rest w :
  APIDriver.migrate_leaves self category custom_group_data ((pkey, data) :: rest) w
  = match get_pkey_info category custom_group_data with
    | Raise e => (Raise e, w)
    | Ret pkey_info =>
        match construct (APIDriver.migration_identifier self category pkey pkey_info) with
        | Raise e => (Raise e, w)
        | Ret ident_data =>
            match try_except
                    (_ ← APIDriver.set self ident_data data; mret tt)
                    (fun err => emit (LogCritical ident_data data err)) w
            with
            | (Ret _, w') => APIDriver.migrate_leaves self category custom_group_data rest w'
            | (Raise e, w') => (Raise e, w')
            end
        end
    end.
Proof.
  simpl. unfold mbind at 1, M_bind at 1, lift.
  destruct (get_pkey_info category custom_group_data) as [pkey_info|]; [|done].
  unfold mbind at 1, M_bind at 1.
  by destruct (construct _).
Qed.

Lemma import_categories_cons self category all_data rest custom_group_data w :
  APIDriver.import_categories self ((category, all_data) :: rest) custom_group_data w
  = let w0 := {| net := net w; exchanges := exchanges w;
                 log := log w ++ [LogInfo ("Converting cog category: " +:+ category)] |} in
    match get_pkey_info category custom_group_data with
    | Raise e => (Raise e, w0)
    | Ret pkey_info =>
        match construct (APIDriver.migration_identifier self category [] pkey_info) with
        | Raise e => (Raise e, w0)
        | Ret ident_data =>
            match try_except
                    (_ ← APIDriver.set self ident_data all_data; mret tt)
                    (fun _ => APIDriver._individual_migrate self category custom_group_data
                                all_data) w0
            with
            | (Ret _, w') => APIDriver.import_categories self rest custom_group_data w'
            | (Raise e, w') => (Raise e, w')
            end
        end
    end.
Proof.
  simpl. unfold mbind at 1, M_bind at 1, emit.
  unfold mbind at 1, M_bind at 1, lift.
  destruct (get_pkey_info category custom_group_data) as [pkey_info|]; [|done].
  unfold mbind at 1, M_bind at 1.
  by destruct (construct _).
Qed.


Lemma construct_bulk self category pkey_info :
  APIDriver.cog_name self <> EmptyString ->
  construct (APIDriver.migration_identifier self category [] pkey_info)
  = Ret (bulk_identifier self category pkey_info).
Proof.
  intros Hn. unfold construct, can_be_constructed. simpl.
  by destruct (String.eqb_spec (APIDriver.cog_name self) EmptyString).
Qed.




End Migration.

(** ** The choice of codec *)
Section CodecChoice.
Context (l : json_library).

Lemma dump_to_string_agree_iff (v : json) :
  @APIDriver._dump_to_string (using_orjson l) v = @APIDriver._dump_to_string (using_ujson l) v
  <-> orjson_dumps l v = encode (ujson_dumps l v).
Proof.
  unfold APIDriver._dump_to_string. simpl. split; intros H.
  - by rewrite <- H, encode_decode.
  - by rewrite H, decode_encode.
Qed.

Lemma JsonPayload_agree_iff (v : json) :
  @APIDriver.JsonPayload (using_orjson l) v = @APIDriver.JsonPayload (using_ujson l) v
  <-> orjson_dumps l v = encode (ujson_dumps l v).
Proof.
  unfold APIDriver.JsonPayload. simpl. split; intros H.
  - by injection H.
  - by rewrite H.
Qed.

(** C6, as amended.  The driver evens out the representation only: for
    a value, the two branches of [_dump_to_string] return the same text,
    and the two branches of [JsonPayload] hold the same bytes, exactly
    when [orjson] and [ujson] write the same document for that value (the
    one as UTF-8 bytes, the other as text); where the libraries write
    different documents the caller sees the difference. *)
Theorem codec_branches_agree_where_libraries_agree (v : json) :
  (@APIDriver._dump_to_string (using_orjson l) v = @APIDriver._dump_to_string (using_ujson l) v
   <-> orjson_dumps l v = encode (ujson_dumps l v)) /\
  (@APIDriver.JsonPayload (using_orjson l) v = @APIDriver.JsonPayload (using_ujson l) v
   <-> orjson_dumps l v = encode (ujson_dumps l v)) /\
  (@APIDriver._dump_to_string (using_orjson l) v = @APIDriver._dump_to_string (using_ujson l) v
   <-> @APIDriver.JsonPayload (using_orjson l) v = @APIDriver.JsonPayload (using_ujson l) v).
Proof.
  split; [apply dump_to_string_agree_iff|]. split; [apply JsonPayload_agree_iff|].
  by rewrite dump_to_string_agree_iff, JsonPayload_agree_iff.
Qed.

End CodecChoice.

(** C6, counterexample.  For the string [a/b] the two branches of
    [_dump_to_string] return different texts, and the two branches of
    [JsonPayload] different bytes: [ujson] escapes the slash, [orjson]
    does not. *)
Lemma codec_choice_is_visible :
  @APIDriver._dump_to_string (using_orjson (Reference.installed [])) (JStr "a/b")
  = String Reference.dquote ("a/b" +:+ String Reference.dquote EmptyString) /\
  @APIDriver._dump_to_string (using_ujson (Reference.installed [])) (JStr "a/b")
  = String Reference.dquote ("a\/b" +:+ String Reference.dquote EmptyString) /\
  @APIDriver._dump_to_string (using_orjson (Reference.installed [])) (JStr "a/b")
  <> @APIDriver._dump_to_string (using_ujson (Reference.installed [])) (JStr "a/b") /\
  @APIDriver.JsonPayload (using_orjson (Reference.installed [])) (JStr "a/b")
  <> @APIDriver.JsonPayload (using_ujson (Reference.installed [])) (JStr "a/b").
Proof.
  split; [reflexivity|]. split; [reflexivity|]. split; vm_compute; discriminate.
Qed.

(** ** The driver on concrete exchanges *)

(** A 404 with a JSON body: [get] raises [KeyError]; [set] raises
    [ConfigError] with [str] of the decoded body, which is not the raw
    body. *)
Example get_and_set_on_404 :
  fst (@APIDriver.get Demo.base Demo.with_orjson Demo.scripted Demo.driver Demo.global_flag
         (Demo.start [Ret (Demo.reply 404 Demo.detail_denied)]))
  = Raise KeyError /\
  fst (@APIDriver.set Demo.base Demo.with_orjson Demo.scripted Demo.driver Demo.global_flag
         JNull (Demo.start [Ret (Demo.reply 404 Demo.detail_denied)]))
  = Raise (ConfigError "{'detail': 'denied'}") /\
  body (Demo.reply 404 Demo.detail_denied) <> "{'detail': 'denied'}".
Proof. repeat split. vm_compute. discriminate. Qed.

(** A non-200 answer whose body is not a JSON document: the decoding
    error is what [set] raises. *)
Example set_on_plain_text_500 :
  fst (@APIDriver.set Demo.base Demo.with_orjson Demo.scripted Demo.driver Demo.global_flag
         JNull (Demo.start [Ret {| status := 500; body := "Internal Server Error" |}]))
  = Raise JSONDecodeError.
Proof. reflexivity. Qed.

(** C1, counterexample.  On a 404 [get] raises [KeyError], not a
    configuration error with the response body. *)
Lemma get_non_200_is_not_config_error :
  status (Demo.reply 404 Demo.detail_denied) <> 200 /\
  fst (@APIDriver.get Demo.base Demo.with_orjson Demo.scripted Demo.driver Demo.global_flag
         (Demo.start [Ret (Demo.reply 404 Demo.detail_denied)]))
  = Raise KeyError /\
  forall msg,
    fst (@APIDriver.get Demo.base Demo.with_orjson Demo.scripted Demo.driver Demo.global_flag
           (Demo.start [Ret (Demo.reply 404 Demo.detail_denied)]))
    <> Raise (ConfigError msg).
Proof. split; [done|]. split; [reflexivity|]. intros msg. vm_compute. discriminate. Qed.

Lemma non_200_status_raises_witness :
  status (Demo.reply 404 Demo.detail_denied) <> 200 /\
  fst (@APIDriver.set Demo.base Demo.with_ujson Demo.scripted Demo.driver Demo.global_flag
         JNull (Demo.start [Ret (Demo.reply 404 Demo.detail_denied)]))
  = Raise (ConfigError (Demo.py_str Demo.detail_denied)) /\
  fst (@APIDriver.get Demo.base Demo.with_ujson Demo.scripted Demo.driver Demo.global_flag
         (Demo.start [Ret (Demo.reply 404 Demo.detail_denied)]))
  = Raise KeyError.
Proof.
  assert (Hs : status (Demo.reply 404 Demo.detail_denied) <> 200) by (simpl; lia).
  split; [exact Hs|].
  destruct (@non_200_status_raises Demo.base Demo.with_ujson Demo.scripted Demo.driver
              Demo.global_flag (Demo.start [Ret (Demo.reply 404 Demo.detail_denied)])
              (Demo.reply 404 Demo.detail_denied) Hs) as [Hwrite Hget].
  destruct (Hwrite Demo.detail_denied eq_refl) as [Hset _].
  split; [apply Hset; reflexivity | apply Hget; reflexivity].
Defined.

(** Called with no keyword argument at all, [delete_all_data] hands the
    clear-all request to a session that takes it and returns what the
    service answered. *)
Lemma delete_all_data_without_confirmation :
  fst (@APIDriver.delete_all_data Demo.base Demo.with_orjson Demo.scripted Demo.driver []
         (Demo.start [Ret (Demo.reply 200 Demo.value_null)]))
  = Ret JNull /\
  List.map fst
    (exchanges (snd (@APIDriver.delete_all_data Demo.base Demo.with_orjson Demo.scripted
                       Demo.driver [] (Demo.start [Ret (Demo.reply 200 Demo.value_null)]))))
  = [{| req_method := PUT;
        req_url := "http://localhost:8000/config/clear_all";
        req_headers := [("Authorization", Some "secret")];
        req_param := [("i_want_to_do_this", JBool true)];
        req_data := None |}].
Proof. split; reflexivity. Qed.

(** On a session that takes no keyword [param], the call raises
    [TypeError] with a confirmation as well as without: the wipe is not
    made even when the caller confirms, and the refusal is not a refusal
    of the missing confirmation. *)
Example delete_all_data_on_a_strict_session :
  @APIDriver.delete_all_data Demo.base Demo.with_orjson Demo.strict Demo.driver
    [("i_want_to_do_this", JBool true)]
    (@Build_world Demo.strict [Ret (Demo.reply 200 Demo.value_null)] [] [])
  = @APIDriver.delete_all_data Demo.base Demo.with_orjson Demo.strict Demo.driver []
      (@Build_world Demo.strict [Ret (Demo.reply 200 Demo.value_null)] [] []) /\
  fst (@APIDriver.delete_all_data Demo.base Demo.with_orjson Demo.strict Demo.driver
         [("i_want_to_do_this", JBool true)]
         (@Build_world Demo.strict [Ret (Demo.reply 200 Demo.value_null)] [] []))
  = Raise (OtherException "TypeError") /\
  @net Demo.strict
    (snd (@APIDriver.delete_all_data Demo.base Demo.with_orjson Demo.strict Demo.driver
            [("i_want_to_do_this", JBool true)]
            (@Build_world Demo.strict [Ret (Demo.reply 200 Demo.value_null)] [] [])))
  = [Ret (Demo.reply 200 Demo.value_null)].
Proof. repeat split. Qed.

(** C4, counterexample.  For the value [None] the body of [set] binds
    [config_data] to the JSON string ["null"], not to the JSON value
    [null], and has no [default] key. *)
Lemma set_body_is_string_encoded :
  req_data (@APIDriver.set_request Demo.base Demo.with_orjson Demo.driver Demo.global_flag JNull)
  = Some (@APIDriver.JsonPayload Demo.with_orjson
            (JObj [("identifier", Demo.to_dict Demo.global_flag);
                   ("config_data", JStr "null")])) /\
  req_data (@APIDriver.set_request Demo.base Demo.with_orjson Demo.driver Demo.global_flag JNull)
  <> Some (@APIDriver.JsonPayload Demo.with_orjson
             (JObj [("identifier", Demo.to_dict Demo.global_flag);
                    ("config_data", JNull)])) /\
  forall default,
    req_data (@APIDriver.set_request Demo.base Demo.with_orjson Demo.driver Demo.global_flag
                JNull)
    <> Some (@APIDriver.JsonPayload Demo.with_orjson
               (JObj [("identifier", Demo.to_dict Demo.global_flag);
                      ("config_data", JNull);
                      ("default", default)])).
Proof.
  split; [reflexivity|]. split.
  - vm_compute. discriminate.
  - intros default H. cbv in H. discriminate H.
Qed.

(** The text of that body. *)
Example set_body_text :
  option_map (fun p => decode (payload_value p))
    (req_data (@APIDriver.set_request Demo.base Demo.with_orjson Demo.driver Demo.global_flag
                 JNull))
  = Some (Reference.json_text
            (JObj [("identifier", JArr [JStr "music"; JStr "1"; JStr "GLOBAL"]);
                   ("config_data", JStr "null")])).
Proof. reflexivity. Qed.

Lemma status_200_results_witness :
  status (Demo.reply 200 Demo.detail_then_value) = 200 /\
  ~ In "value" (List.map fst [("detail", JStr "denied")]) /\
  fst (@APIDriver.get Demo.base Demo.with_orjson_more Demo.scripted Demo.driver
         Demo.global_flag (Demo.start [Ret (Demo.reply 200 Demo.detail_then_value)]))
  = Ret (PJson Demo.detail_then_value) /\
  fst (@APIDriver.set Demo.base Demo.with_orjson_more Demo.scripted Demo.driver
         Demo.global_flag (JBool false)
         (Demo.start [Ret (Demo.reply 200 Demo.detail_then_value)]))
  = Ret (JBool true).
Proof.
  assert (Hn : ~ In "value" (List.map fst [("detail", JStr "denied")])).
  { simpl. intros [H|[]]. discriminate H. }
  split; [reflexivity|]. split; [exact Hn|].
  destruct (@status_200_results Demo.base Demo.with_orjson_more Demo.scripted Demo.driver
              Demo.global_flag (Demo.start [Ret (Demo.reply 200 Demo.detail_then_value)])
              (Demo.reply 200 Demo.detail_then_value) Demo.detail_then_value
              eq_refl eq_refl) as [Hget Hwrite].
  destruct (Hwrite [("detail", JStr "denied")] (JBool true) [] eq_refl Hn) as [Hset _].
  split; [apply Hget; reflexivity | apply (Hset (JBool false)); reflexivity].
Defined.

(** A migration of two guilds in which the bulk [set] and the [set] of
    the second guild fail: three requests, one critical record, no
    exception. *)
Example import_data_run :
  let run := @APIDriver.import_data Demo.base Demo.with_orjson Demo.scripted Demo.driver
               [("GUILD", Demo.guild_data)] Demo.categories
               (Demo.start [Ret (Demo.reply 500 Demo.detail_denied);
                            Ret (Demo.reply 200 Demo.value_null);
                            Ret (Demo.reply 403 Demo.detail_denied)]) in
  fst run = Ret tt /\
  List.map (fun x => returns (@set_result Demo.base Demo.with_orjson (snd x)))
    (exchanges (snd run)) = [false; true; false] /\
  List.filter is_critical (log (snd run))
  = [LogCritical
       (APIDriver.migration_identifier Demo.driver "GUILD" ["200"] (1%nat, false))
       (JObj [("volume", JInt 70)])
       (ConfigError "{'detail': 'denied'}")].
Proof. repeat split. Qed.




(** * Properties of the Lavalink auto-update cache manager *)
Section Manager.
Import LavalinkAutoUpdateManager.
Context `{Cfg : Config}.

(** A call of [set_global] that returns leaves its argument, or the
    declared default, in the cache under [None]. *)
Lemma set_global_caches (self self' : t) (set_to : option bool) :
  set_global self set_to = (Ret tt, self') ->
  enable_cache self' = enable_cache self /\
  exists v, _cached_global self' !! tt = Some v /\
    match set_to with
    | Some x => v = x
    | None => declared_default (_config self') = Some v
    end.
Proof.
  unfold set_global. intros H. destruct set_to as [x|].
  - destruct (autoupdate_set x (_config self)) as [[[]|e] config]; [|done].
    injection H as <-. simpl. split; [done|]. exists x. by rewrite lookup_insert_eq.
  - destruct (autoupdate_clear (_config self)) as [[[]|e] config]; [|done].
    destruct (declared_default config) as [d|] eqn:Ed; [|done].
    injection H as <-. simpl. split; [done|]. exists d. by rewrite lookup_insert_eq.
Qed.

Lemma get_global_hit (self : t) (v : bool) :
  enable_cache self = true ->
  _cached_global self !! tt = Some v ->
  get_global self = (Ret v, self).
Proof.
  intros He Hv. unfold get_global, none_in_cached_global. rewrite He. simpl.
  rewrite bool_decide_eq_true_2 by (rewrite Hv; by eexists).
  by rewrite Hv.
Qed.

(** C7.  With caching enabled, once [set_global(x)] has returned for a
    boolean [x], [get_global()] returns [x] and leaves the manager as it
    is: no call is made on the [Config] object. *)
Theorem set_then_get_is_served_from_cache (self self' : t) (x : bool) :
  enable_cache self = true ->
  set_global self (Some x) = (Ret tt, self') ->
  get_global self' = (Ret x, self') /\
  config_calls (snd (get_global self')) = config_calls self' /\
  _config (snd (get_global self')) = _config self'.
Proof.
  intros He Hset.
  destruct (set_global_caches _ _ _ Hset) as (He' & v & Hv & ->).
  assert (Hget : get_global self' = (Ret x, self'))
    by (apply get_global_hit; [by rewrite He' | done]).
  by rewrite Hget.
Qed.

(** C8, as amended.  With caching disabled, [get_global] always awaits
    the read on the [Config] object and returns its outcome, and
    [set_global] of a boolean always awaits the write; the cache
    dictionary is never consulted, but it is still written after each of
    the two calls that returns. *)
Theorem disabled_cache_goes_to_the_backend (self : t) :
  enable_cache self = false ->
  (fst (get_global self) = fst (autoupdate_call (_config self)) /\
   _config (snd (get_global self)) = snd (autoupdate_call (_config self)) /\
   config_calls (snd (get_global self)) = config_calls self ++ [CallRead] /\
   forall ret, fst (get_global self) = Ret ret ->
     _cached_global (snd (get_global self)) = <[tt := ret]> (_cached_global self)) /\
  (forall v : bool,
     returns (fst (set_global self (Some v)))
     = returns (fst (autoupdate_set v (_config self))) /\
     _config (snd (set_global self (Some v))) = snd (autoupdate_set v (_config self)) /\
     config_calls (snd (set_global self (Some v))) = config_calls self ++ [CallSet v] /\
     (fst (set_global self (Some v)) = Ret tt ->
      _cached_global (snd (set_global self (Some v))) = <[tt := v]> (_cached_global self))).
Proof.
  intros He. split.
  - unfold get_global. rewrite He. simpl.
    destruct (autoupdate_call (_config self)) as [[ret|e] config]; simpl.
    + repeat split. by intros ? [= ->].
    + repeat split. done.
  - intros v. unfold set_global.
    destruct (autoupdate_set v (_config self)) as [[[]|e] config]; simpl.
    + repeat split.
    + repeat split. done.
Qed.

(** C9.  When the clearing call returns and the local dictionary
    [defaults] holds [d] at [GLOBAL], [lavalink], [autoupdate],
    [set_global(None)] returns after one call on the [Config] object, the
    clearing one, and the cache holds that [d] under [None]. *)
Theorem reset_clears_and_caches_declared_default (self : t) (config : Store)
  (global : gmap string (gmap string bool)) (lavalink : gmap string bool) (d : bool) :
  autoupdate_clear (_config self) = (Ret tt, config) ->
  defaults config !! "GLOBAL" = Some global ->
  global !! "lavalink" = Some lavalink ->
  lavalink !! "autoupdate" = Some d ->
  fst (set_global self None) = Ret tt /\
  _config (snd (set_global self None)) = config /\
  config_calls (snd (set_global self None)) = config_calls self ++ [CallClear] /\
  _cached_global (snd (set_global self None)) = <[tt := d]> (_cached_global self) /\
  _cached_global (snd (set_global self None)) !! tt = Some d.
Proof.
  intros Hc Hg Hl Hd. unfold set_global, declared_default. rewrite Hc, Hg, Hl, Hd. simpl.
  repeat split. by rewrite lookup_insert_eq.
Qed.

(** C10.  [get_context_value] does not depend on the guild: for any two
    guilds it is the same computation, namely [get_global]. *)
Theorem get_context_value_ignores_guild {Guild : Type} (self : t) (g1 g2 : Guild) :
  get_context_value self g1 = get_context_value self g2 /\
  get_context_value self g1 = get_global self.
Proof. split; reflexivity. Qed.

End Manager.

(** ** The manager on the simple store *)

(** C8, counterexample.  A manager built with [enable_cache=False]
    starts with an empty cache dictionary; one [get_global] and the
    dictionary holds the value read. *)
Lemma disabled_cache_is_still_written :
  let self := @LavalinkAutoUpdateManager.init LavalinkAutoUpdateManager.simple_config
                {| LavalinkAutoUpdateManager.stored := Some true;
                   LavalinkAutoUpdateManager.registered :=
                     LavalinkAutoUpdateManager.registered_with false |}
                false in
  LavalinkAutoUpdateManager.enable_cache self = false /\
  LavalinkAutoUpdateManager._cached_global self = ∅ /\
  fst (LavalinkAutoUpdateManager.get_global self) = Ret true /\
  LavalinkAutoUpdateManager._cached_global (snd (LavalinkAutoUpdateManager.get_global self))
  = {[ tt := true ]} /\
  LavalinkAutoUpdateManager._cached_global (snd (LavalinkAutoUpdateManager.get_global self))
  <> LavalinkAutoUpdateManager._cached_global self.
Proof.
  repeat split. simpl. intros H.
  apply (f_equal (fun m : gmap unit bool => m !! tt)) in H.
  rewrite lookup_insert_eq, lookup_empty in H. discriminate.
Qed.

Lemma set_then_get_is_served_from_cache_witness :
  let self := @LavalinkAutoUpdateManager.init LavalinkAutoUpdateManager.simple_config
                {| LavalinkAutoUpdateManager.stored := Some true;
                   LavalinkAutoUpdateManager.registered :=
                     LavalinkAutoUpdateManager.registered_with true |}
                true in
  let self' := snd (LavalinkAutoUpdateManager.set_global self (Some false)) in
  LavalinkAutoUpdateManager.enable_cache self = true /\
  LavalinkAutoUpdateManager.set_global self (Some false) = (Ret tt, self') /\
  LavalinkAutoUpdateManager.get_global self' = (Ret false, self') /\
  LavalinkAutoUpdateManager.config_calls
    (snd (LavalinkAutoUpdateManager.get_global self'))
  = [LavalinkAutoUpdateManager.CallSet false].
Proof.
  intros self self'.
  assert (He : LavalinkAutoUpdateManager.enable_cache self = true) by reflexivity.
  assert (Hs : LavalinkAutoUpdateManager.set_global self (Some false) = (Ret tt, self'))
    by reflexivity.
  split; [exact He|]. split; [exact Hs|].
  destruct (@set_then_get_is_served_from_cache LavalinkAutoUpdateManager.simple_config
              self self' false He Hs) as (Hget & Hcalls & _).
  split; [exact Hget|]. rewrite Hcalls. reflexivity.
Defined.

Lemma disabled_cache_goes_to_the_backend_witness :
  let self := @LavalinkAutoUpdateManager.init LavalinkAutoUpdateManager.simple_config
                {| LavalinkAutoUpdateManager.stored := Some true;
                   LavalinkAutoUpdateManager.registered :=
                     LavalinkAutoUpdateManager.registered_with false |}
                false in
  LavalinkAutoUpdateManager.enable_cache self = false /\
  fst (LavalinkAutoUpdateManager.get_global self) = Ret true /\
  LavalinkAutoUpdateManager.config_calls (snd (LavalinkAutoUpdateManager.get_global self))
  = [LavalinkAutoUpdateManager.CallRead] /\
  LavalinkAutoUpdateManager.config_calls
    (snd (LavalinkAutoUpdateManager.get_global
            (snd (LavalinkAutoUpdateManager.get_global self))))
  = [LavalinkAutoUpdateManager.CallRead; LavalinkAutoUpdateManager.CallRead].
Proof.
  intros self.
  assert (He : LavalinkAutoUpdateManager.enable_cache self = false) by reflexivity.
  split; [exact He|].
  destruct (@disabled_cache_goes_to_the_backend LavalinkAutoUpdateManager.simple_config
              self He) as [(Hret & _ & Hcalls & _) _].
  split; [rewrite Hret; reflexivity|]. split; [rewrite Hcalls; reflexivity|].
  destruct (@disabled_cache_goes_to_the_backend LavalinkAutoUpdateManager.simple_config
              (snd (LavalinkAutoUpdateManager.get_global self)) eq_refl)
    as [(_ & _ & Hcalls2 & _) _].
  rewrite Hcalls2, Hcalls. reflexivity.
Defined.

Lemma reset_clears_and_caches_declared_default_witness :
  let before := {| LavalinkAutoUpdateManager.stored := Some true;
                   LavalinkAutoUpdateManager.registered :=
                     LavalinkAutoUpdateManager.registered_with false |} in
  let after := {| LavalinkAutoUpdateManager.stored := None;
                  LavalinkAutoUpdateManager.registered :=
                    LavalinkAutoUpdateManager.registered_with false |} in
  let self := snd (LavalinkAutoUpdateManager.set_global
                     (@LavalinkAutoUpdateManager.init LavalinkAutoUpdateManager.simple_config
                        before true) (Some true)) in
  LavalinkAutoUpdateManager._cached_global self !! tt = Some true /\
  @LavalinkAutoUpdateManager.defaults LavalinkAutoUpdateManager.simple_config after
    !! "GLOBAL" = Some {[ "lavalink" := {[ "autoupdate" := false ]} ]} /\
  fst (LavalinkAutoUpdateManager.set_global self None) = Ret tt /\
  LavalinkAutoUpdateManager.config_calls (snd (LavalinkAutoUpdateManager.set_global self None))
  = [LavalinkAutoUpdateManager.CallSet true; LavalinkAutoUpdateManager.CallClear] /\
  LavalinkAutoUpdateManager._cached_global
    (snd (LavalinkAutoUpdateManager.set_global self None)) !! tt = Some false.
Proof.
  intros before after self.
  assert (Hv : LavalinkAutoUpdateManager._cached_global self !! tt = Some true)
    by (vm_compute; reflexivity).
  assert (Hg : @LavalinkAutoUpdateManager.defaults LavalinkAutoUpdateManager.simple_config after
                 !! "GLOBAL" = Some {[ "lavalink" := {[ "autoupdate" := false ]} ]})
    by (vm_compute; reflexivity).
  assert (Hl : ({[ "lavalink" := {[ "autoupdate" := false ]} ]}
                  : gmap string (gmap string bool)) !! "lavalink"
               = Some {[ "autoupdate" := false ]}) by (vm_compute; reflexivity).
  assert (Hd : ({[ "autoupdate" := false ]} : gmap string bool) !! "autoupdate" = Some false)
    by (vm_compute; reflexivity).
  split; [exact Hv|]. split; [exact Hg|].
  destruct (@reset_clears_and_caches_declared_default LavalinkAutoUpdateManager.simple_config
              self after _ _ false eq_refl Hg Hl Hd) as (Hret & _ & Hcalls & _ & Hcache).
  split; [exact Hret|]. split; [exact Hcalls | exact Hcache].
Defined.

(** * Further properties of the remote API driver *)

Lemma dict_get_absent (kvs : list (string * json)) (key : string) :
  ~ In key (List.map fst kvs) -> dict_get kvs key = JNull.
Proof.
  induction kvs as [|[k v] kvs IH]; simpl; [done|]. intros Hn.
  destruct (String.eqb_spec k key) as [->|Hne]; [tauto|].
  apply IH. tauto.
Qed.

Section DriverMore.
Context `{B : Base} `{C : Codec} `{S : Session}.

(** X1.  The bytes of a [JsonPayload] are the UTF-8 encoding of the text
    that [_dump_to_string] returns for the same value, whichever codec is
    in use. *)
Theorem payload_is_encoded_dump (value : json) :
  payload_value (APIDriver.JsonPayload value) = encode (APIDriver._dump_to_string value) /\
  decode (payload_value (APIDriver.JsonPayload value)) = APIDriver._dump_to_string value.
Proof.
  unfold APIDriver.JsonPayload, APIDriver._dump_to_string.
  destruct orjson; simpl.
  - by rewrite encode_decode.
  - by rewrite decode_encode.
Qed.

(** X2.  [_load_to_string] applied twice is [_load_to_string] applied once. *)
Theorem load_to_string_idempotent (value : pyval) :
  APIDriver._load_to_string (APIDriver._load_to_string value)
  = APIDriver._load_to_string value.
Proof.
  unfold APIDriver._load_to_string. destruct orjson; simpl; [|done].
  by destruct value.
Qed.

Lemma perform_run (self : APIDriver.t) (c : write_call) (w : world) :
  perform self c w
  = (set_result (fst (http (request_of self c) (net w))), after_request (request_of self c) w).
Proof. destruct c; apply request_then_tail. Qed.

Lemma aiter_cogs_run (cls : APIDriver.t) (w : world) :
  APIDriver.aiter_cogs cls w
  = (match fst (http (APIDriver.aiter_cogs_request cls) (net w)) with
     | Raise e => Raise e
     | Ret r =>
         match APIDriver.json_loads (body r) with
         | Some j => Ret (PJson j)
         | None => Raise JSONDecodeError
         end
     end,
     after_request (APIDriver.aiter_cogs_request cls) w).
Proof.
  unfold APIDriver.aiter_cogs, mbind, M_bind, session_request, after_request.
  destruct (http (APIDriver.aiter_cogs_request cls) (net w)) as [[r|e] n]; simpl; [|done].
  unfold APIDriver.response_json.
  destruct (APIDriver.json_loads (body r)) as [j|]; [|done].
  unfold mret, M_ret. by rewrite load_to_string_json.
Qed.

(** X3.  An operation whose dumped values are serialisable hands the
    session exactly one request, whether it then returns or raises: the
    history of exchanges grows by that one call, and the log is left as
    it was. *)
Theorem every_operation_is_one_call (self : APIDriver.t) (w : world) :
  (forall c,
     forallb serialisable (dumped_values c) = true ->
     exchanges (snd (perform self c w))
     = exchanges w ++ [(request_of self c, fst (http (request_of self c) (net w)))] /\
     log (snd (perform self c w)) = log w) /\
  (forall i,
     serialisable (to_dict i) = true ->
     exchanges (snd (APIDriver.get self i w))
     = exchanges w ++ [(APIDriver.get_request self i,
                        fst (http (APIDriver.get_request self i) (net w)))] /\
     log (snd (APIDriver.get self i w)) = log w) /\
  (exchanges (snd (APIDriver.aiter_cogs self w))
   = exchanges w ++ [(APIDriver.aiter_cogs_request self,
                      fst (http (APIDriver.aiter_cogs_request self) (net w)))] /\
   log (snd (APIDriver.aiter_cogs self w)) = log w).
Proof.
  split; [|split].
  - intros c _. by rewrite perform_run.
  - intros i _. by rewrite get_run.
  - by rewrite aiter_cogs_run.
Qed.

(** X4.  An exception raised by the session itself comes out of every
    operation unchanged: it is not turned into [ConfigError], nor, for
    [get], into [KeyError]. *)
Theorem session_failure_propagates (self : APIDriver.t) (w : world) (e : exn) :
  (forall c,
     fst (http (request_of self c) (net w)) = Raise e ->
     fst (perform self c w) = Raise e) /\
  (forall i,
     fst (http (APIDriver.get_request self i) (net w)) = Raise e ->
     fst (APIDriver.get self i w) = Raise e) /\
  (fst (http (APIDriver.aiter_cogs_request self) (net w)) = Raise e ->
   fst (APIDriver.aiter_cogs self w) = Raise e).
Proof.
  split; [|split].
  - intros c H. rewrite perform_run. simpl. by rewrite H.
  - intros i H. rewrite get_run. simpl. by rewrite H.
  - intros H. rewrite aiter_cogs_run. simpl. by rewrite H.
Qed.

(** X5.  A response whose body the codec cannot decode: the five writes raise
    the decoding error whatever the status, 200 included; [get] raises it
    on status 200 only, and [KeyError] on any other status. *)
Theorem undecodable_body (self : APIDriver.t) (w : world) (r : response) :
  APIDriver.json_loads (body r) = None ->
  (forall c,
     fst (http (request_of self c) (net w)) = Ret r ->
     fst (perform self c w) = Raise JSONDecodeError) /\
  (forall i,
     fst (http (APIDriver.get_request self i) (net w)) = Ret r ->
     fst (APIDriver.get self i w)
     = Raise (if Z.eqb (status r) 200 then JSONDecodeError else KeyError)).
Proof.
  intros Hj. split.
  - intros c H. rewrite perform_run. simpl. rewrite H. unfold set_result. by rewrite Hj.
  - intros i H. rewrite get_run. simpl. rewrite H, Hj. by destruct (Z.eqb (status r) 200).
Qed.

(** X6.  A 200 whose decoded body is not a mapping: the five writes raise
    [AttributeError] (the body has no [get]), while [get] returns the
    body. *)
Theorem status_200_not_a_mapping (self : APIDriver.t) (w : world) (r : response) (j : json) :
  status r = 200 ->
  APIDriver.json_loads (body r) = Some j ->
  (forall kvs, j <> JObj kvs) ->
  (forall c,
     fst (http (request_of self c) (net w)) = Ret r ->
     fst (perform self c w) = Raise AttributeError) /\
  (forall i,
     fst (http (APIDriver.get_request self i) (net w)) = Ret r ->
     fst (APIDriver.get self i w) = Ret (PJson j)).
Proof.
  intros Hs Hj Hn. split.
  - intros c H. rewrite perform_run. simpl. rewrite H. unfold set_result.
    rewrite Hj, Hs. simpl. destruct j; try done. by destruct (Hn kvs).
  - intros i H. rewrite get_run. simpl. by rewrite H, Hs, Hj.
Qed.

(** X7.  A 200 whose decoded body is a mapping without the key [value]: the
    five writes return [None]. *)
Theorem status_200_without_value (self : APIDriver.t) (w : world) (r : response)
  (kvs : list (string * json)) :
  status r = 200 ->
  APIDriver.json_loads (body r) = Some (JObj kvs) ->
  ~ In "value" (List.map fst kvs) ->
  forall c,
    fst (http (request_of self c) (net w)) = Ret r ->
    fst (perform self c w) = Ret JNull.
Proof.
  intros Hs Hj Hn c H. rewrite perform_run. simpl. rewrite H.
  rewrite (set_result_200 _ kvs Hs Hj). by rewrite dict_get_absent.
Qed.

(** X8.  [aiter_cogs] does not look at the status: whatever it is, the
    decoded body is what is returned. *)
Theorem aiter_cogs_ignores_status (cls : APIDriver.t) (w : world) (r : response) (j : json) :
  APIDriver.json_loads (body r) = Some j ->
  fst (http (APIDriver.aiter_cogs_request cls) (net w)) = Ret r ->
  fst (APIDriver.aiter_cogs cls w) = Ret (PJson j).
Proof.
  intros Hj H. rewrite aiter_cogs_run. simpl. by rewrite H, Hj.
Qed.

(** X9.  The URL of a request is the base URL followed by the path of the
    endpoint, also when the base URL itself holds the text [{base}]. *)
Theorem request_urls (self : APIDriver.t) :
  (forall i, req_url (APIDriver.get_request self i) = APIDriver.base_url self +:+ "/config/get") /\
  req_url (APIDriver.aiter_cogs_request self) = APIDriver.base_url self +:+ "/config/cogs" /\
  (forall i v, req_url (request_of self (DoSet i v))
               = APIDriver.base_url self +:+ "/config/set") /\
  (forall i, req_url (request_of self (DoClear i))
             = APIDriver.base_url self +:+ "/config/clear") /\
  (forall i v d, req_url (request_of self (DoInc i v d))
                 = APIDriver.base_url self +:+ "/config/increment") /\
  (forall i v d, req_url (request_of self (DoToggle i v d))
                 = APIDriver.base_url self +:+ "/config/toggle") /\
  (forall kwargs, req_url (request_of self (DoDeleteAllData kwargs))
                  = APIDriver.base_url self +:+ "/config/clear_all").
Proof. repeat split. Qed.

End DriverMore.

(** ** Further properties of the migration *)
Section MigrationMore.
Context `{B : Base} `{C : Codec} `{S : Session}.

(** The [try]/[except] around a leaf never raises. *)
Lemma try_leaf_returns self ident_data data w :
  exists w',
    try_except (_ ← APIDriver.set self ident_data data; mret tt)
      (fun err => emit (LogCritical ident_data data err)) w = (Ret tt, w') /\
    exchanges w' = exchanges w ++ [(APIDriver.set_request self ident_data data,
                                    fst (http (APIDriver.set_request self ident_data data)
                                           (net w)))].
Proof.
  rewrite try_set_run. destruct (set_result _); eexists; split; reflexivity.
Qed.

Lemma construct_raise (i : IdentifierData) (e : exn) :
  construct i = Raise e -> e = construction_error.
Proof. unfold construct. destruct (can_be_constructed i); [done|]. by intros [= <-]. Qed.

(** The loop over the leaves raises only what [get_pkey_info] or the
    constructor raises. *)
Lemma migrate_leaves_raise self category custom_group_data leaves w e w' :
  APIDriver.migrate_leaves self category custom_group_data leaves w = (Raise e, w') ->
  get_pkey_info category custom_group_data = Raise e \/ e = construction_error.
Proof.
  revert w. induction leaves as [|[pkey data] leaves IH]; intros w; [done|].
  rewrite migrate_leaves_cons.
  destruct (get_pkey_info category custom_group_data) as [pkey_info|e0] eqn:Ei.
  - destruct (construct _) as [ident_data|e1] eqn:Ec.
    + destruct (try_leaf_returns self ident_data data w) as (w1 & -> & _).
      intros H. apply IH in H. destruct H as [H|H]; [congruence | by right].
    + intros [= -> _]. right. by apply construct_raise in Ec.
  - intros [= -> _]. by left.
Qed.

(** X10.  The loop over the categories, run on a list in two parts, is the
    loop on the first part followed, when that returns, by the loop on
    the second part in the world the first one left. *)
Theorem import_categories_app (self : APIDriver.t) (rows1 rows2 : list (string * json))
  (custom_group_data : registry) (w : world) :
  APIDriver.import_categories self (rows1 ++ rows2) custom_group_data w
  = match APIDriver.import_categories self rows1 custom_group_data w with
    | (Ret _, w') => APIDriver.import_categories self rows2 custom_group_data w'
    | (Raise e, w') => (Raise e, w')
    end.
Proof.
  revert w. induction rows1 as [|[category all_data] rows1 IH]; intros w; [done|].
  rewrite <- app_comm_cons, !import_categories_cons. cbv zeta.
  destruct (get_pkey_info category custom_group_data) as [pkey_info|e]; [|done].
  destruct (construct _) as [ident_data|e]; [|done].
  destruct (try_except _ _ _) as [[[]|e] w1]; [apply IH | done].
Qed.

(** X11.  Whatever [import_data] raises is the construction error of
    [IdentifierData] or was raised by one of the two helpers of [base.py]
    on one of the rows: an exception of [set] never leaves it. *)
Theorem import_data_raises_only_helper_errors (self : APIDriver.t)
  (cog_data : list (string * json)) (custom_group_data : registry) (w w' : world) (e : exn) :
  APIDriver.import_data self cog_data custom_group_data w = (Raise e, w') ->
  e = construction_error \/
  Exists (fun row =>
            get_pkey_info (fst row) custom_group_data = Raise e \/
            _split_primary_key (fst row) custom_group_data (snd row) = Raise e) cog_data.
Proof.
  unfold APIDriver.import_data, mbind, M_bind, emit.
  match goal with |- context [APIDriver.import_categories _ _ _ ?w0] => generalize w0 end.
  induction cog_data as [|[category all_data] rest IH]; intros w0; [done|].
  rewrite import_categories_cons. cbv zeta.
  assert (Htl : forall w1,
             APIDriver.import_categories self rest custom_group_data w1 = (Raise e, w') ->
             e = construction_error \/
             Exists (fun row =>
                       get_pkey_info (fst row) custom_group_data = Raise e \/
                       _split_primary_key (fst row) custom_group_data (snd row) = Raise e)
               ((category, all_data) :: rest)).
  { intros w1 H. destruct (IH _ H) as [Hc|Hex]; [by left | right; by apply Exists_cons_tl]. }
  destruct (get_pkey_info category custom_group_data) as [pkey_info|e0] eqn:Ei.
  - destruct (construct _) as [ident_data|e1] eqn:Ec.
    + rewrite try_set_run.
      destruct (set_result _) as [v|err]; [apply Htl|].
      unfold APIDriver._individual_migrate, mbind at 1, M_bind at 1, lift.
      destruct (_split_primary_key category custom_group_data all_data) as [leaves|e2] eqn:Es.
      * destruct (APIDriver.migrate_leaves _ _ _ _ _) as [[[]|e3] w2] eqn:Em; [apply Htl|].
        intros [= -> _]. apply migrate_leaves_raise in Em.
        destruct Em as [Em|Em]; [congruence | by left].
      * intros [= -> _]. right. apply Exists_cons_hd. by right.
    + intros [= -> _]. left. by apply construct_raise in Ec.
  - intros [= -> _]. right. apply Exists_cons_hd. by left.
Qed.

(** X12.  When [get_pkey_info] raises on the first row, [import_data] raises
    the same exception without a single request: no row is attempted. *)
Theorem import_data_aborts_on_unknown_category (self : APIDriver.t) (category : string)
  (all_data : json) (rest : list (string * json)) (custom_group_data : registry)
  (w : world) (e : exn) :
  get_pkey_info category custom_group_data = Raise e ->
  fst (APIDriver.import_data self ((category, all_data) :: rest) custom_group_data w)
  = Raise e /\
  exchanges (snd (APIDriver.import_data self ((category, all_data) :: rest)
                    custom_group_data w))
  = exchanges w.
Proof.
  intros Hi. unfold APIDriver.import_data, mbind, M_bind, emit.
  rewrite import_categories_cons. cbv zeta. by rewrite Hi.
Qed.

Lemma import_categories_accepted self custom_group_data cog_data :
  APIDriver.cog_name self <> EmptyString ->
  (forall req n, returns (set_result (fst (http req n))) = true) ->
  Forall (fun row => exists pkey_info,
            get_pkey_info (fst row) custom_group_data = Ret pkey_info /\
            serialisable (snd row) = true /\
            serialisable (to_dict (bulk_identifier self (fst row) pkey_info)) = true)
    cog_data ->
  forall w, exists w' xs,
    APIDriver.import_categories self cog_data custom_group_data w = (Ret tt, w') /\
    exchanges w' = exchanges w ++ xs /\
    length xs = length cog_data /\
    List.filter is_critical (log w') = List.filter is_critical (log w).
Proof.
  intros Hn Hok.
  induction 1 as [|[category all_data] rest (pkey_info & Ei & _ & _) _ IH]; intros w.
  - exists w, []. simpl. by rewrite app_nil_r.
  - simpl in Ei. rewrite import_categories_cons. cbv zeta. rewrite Ei.
    rewrite (construct_bulk self category pkey_info Hn), try_set_run.
    match goal with |- context [set_result (fst (http ?req ?n))] =>
      specialize (Hok req n) as Hr; destruct (set_result (fst (http req n))); [|done] end.
    match goal with |- context [APIDriver.import_categories _ _ _ ?w1] =>
      destruct (IH w1) as (w' & xs & Hrun & Hx & Hlen & Hlog) end.
    eexists w', (_ :: xs). split; [exact Hrun|]. split; [|split].
    + rewrite Hx. simpl. by rewrite <- app_assoc.
    + simpl. by rewrite Hlen.
    + rewrite Hlog. simpl. rewrite List.filter_app. simpl. by rewrite app_nil_r.
Qed.

(** X13.  For a driver with a name, when the service accepts every
    request and, on every row, [get_pkey_info] returns and the payload
    and the address are serialisable, [import_data] returns after exactly
    one request per row, logs nothing at level critical, and never needs
    [_split_primary_key]. *)
Theorem import_data_all_accepted (self : APIDriver.t) (cog_data : list (string * json))
  (custom_group_data : registry) (w : world) :
  APIDriver.cog_name self <> EmptyString ->
  (forall req n, returns (set_result (fst (http req n))) = true) ->
  Forall (fun row => exists pkey_info,
            get_pkey_info (fst row) custom_group_data = Ret pkey_info /\
            serialisable (snd row) = true /\
            serialisable (to_dict (bulk_identifier self (fst row) pkey_info)) = true)
    cog_data ->
  exists w' xs,
    APIDriver.import_data self cog_data custom_group_data w = (Ret tt, w') /\
    exchanges w' = exchanges w ++ xs /\
    length xs = length cog_data /\
    List.filter is_critical (log w') = List.filter is_critical (log w).
Proof.
  intros Hn Hok Hrows. unfold APIDriver.import_data, mbind, M_bind, emit.
  match goal with |- context [APIDriver.import_categories _ _ _ ?w0] =>
    destruct (import_categories_accepted self custom_group_data cog_data Hn Hok Hrows w0)
      as (w' & xs & Hrun & Hx & Hlen & Hlog) end.
  exists w', xs. split; [exact Hrun|]. split; [exact Hx|]. split; [exact Hlen|].
  rewrite Hlog. simpl. rewrite List.filter_app. simpl. by rewrite app_nil_r.
Qed.

End MigrationMore.

Section MigrationRequests.
Context `{B : Base} `{C : Codec} `{S : Session}.

Lemma set_request_is_set_call self i v :
  is_set_call self (APIDriver.set_request self i v).
Proof. repeat split. Qed.

Lemma migrate_leaves_calls self category custom_group_data leaves :
  forall w, exists xs,
    exchanges (snd (APIDriver.migrate_leaves self category custom_group_data leaves w))
    = exchanges w ++ xs /\
    Forall (fun x => is_set_call self (fst x)) xs.
Proof.
  induction leaves as [|[pkey data] leaves IH]; intros w.
  - exists []. simpl. by rewrite app_nil_r.
  - rewrite migrate_leaves_cons.
    destruct (get_pkey_info category custom_group_data) as [pkey_info|e];
      [|exists []; simpl; by rewrite app_nil_r].
    destruct (construct _) as [ident_data|e];
      [|exists []; simpl; by rewrite app_nil_r].
    destruct (try_leaf_returns self ident_data data w) as (w1 & -> & Hx1).
    destruct (IH w1) as (xs & Hx & Hall).
    eexists (_ :: xs). split.
    + rewrite Hx, Hx1. by rewrite <- app_assoc.
    + constructor; [apply set_request_is_set_call | exact Hall].
Qed.

Lemma import_categories_calls self custom_group_data cog_data :
  forall w, exists xs,
    exchanges (snd (APIDriver.import_categories self cog_data custom_group_data w))
    = exchanges w ++ xs /\
    Forall (fun x => is_set_call self (fst x)) xs.
Proof.
  induction cog_data as [|[category all_data] rest IH]; intros w.
  - exists []. simpl. by rewrite app_nil_r.
  - rewrite import_categories_cons. cbv zeta.
    destruct (get_pkey_info category custom_group_data) as [pkey_info|e];
      [|exists []; simpl; by rewrite app_nil_r].
    destruct (construct _) as [ident_data|e];
      [|exists []; simpl; by rewrite app_nil_r].
    rewrite try_set_run.
    set (req := APIDriver.set_request self ident_data all_data).
    match goal with |- context [after_request req ?w0] => set (w1 := after_request req w0) end.
    assert (Hreq : is_set_call self req) by apply set_request_is_set_call.
    destruct (set_result _) as [v|err].
    + destruct (IH w1) as (xs & Hx & Hall).
      eexists (_ :: xs). split.
      * rewrite Hx. subst w1. simpl. by rewrite <- app_assoc.
      * constructor; [exact Hreq | exact Hall].
    + unfold APIDriver._individual_migrate, mbind at 1, M_bind at 1, lift.
      destruct (_split_primary_key category custom_group_data all_data) as [leaves|e1].
      * destruct (migrate_leaves_calls self category custom_group_data leaves w1)
          as (lx & Hlx & Hlall).
        destruct (APIDriver.migrate_leaves _ _ _ _ _) as [[[]|e2] w2]; simpl in Hlx.
        -- destruct (IH w2) as (xs & Hx & Hall).
           eexists (_ :: lx ++ xs). split.
           ++ rewrite Hx, Hlx. subst w1. simpl. by rewrite <- !app_assoc.
           ++ constructor; [exact Hreq|]. apply Forall_app. by split.
        -- eexists (_ :: lx). split.
           ++ simpl. rewrite Hlx. subst w1. simpl. by rewrite <- !app_assoc.
           ++ by constructor.
      * eexists [_]. split; [reflexivity|]. by constructor.
Qed.

(** X14.  Whether it returns or raises, [import_data] hands the session
    nothing but calls on the [set] endpoint: each request it adds to the
    history is a PUT on [/config/set] with the token of the driver. *)
Theorem import_data_only_calls_set (self : APIDriver.t) (cog_data : list (string * json))
  (custom_group_data : registry) (w : world) :
  exists xs,
    exchanges (snd (APIDriver.import_data self cog_data custom_group_data w))
    = exchanges w ++ xs /\
    Forall (fun x => is_set_call self (fst x)) xs.
Proof.
  unfold APIDriver.import_data, mbind, M_bind, emit.
  match goal with |- context [APIDriver.import_categories _ _ _ ?w0] =>
    destruct (import_categories_calls self custom_group_data cog_data w0) as (xs & Hx & Hall) end.
  exists xs. split; [exact Hx | exact Hall].
Qed.

End MigrationRequests.

(** ** Connection details and [initialize] *)

Lemma endswith_slash_app (h : string) : APIDriver.endswith_slash (h +:+ "/") = true.
Proof.
  induction h as [|c h IH]; [done|].
  simpl. destruct (h +:+ "/") eqn:E; [by destruct h | exact IH].
Qed.

Lemma without_last_app (h : string) : APIDriver.without_last (h +:+ "/") = h.
Proof.
  induction h as [|c h IH]; [done|].
  simpl. destruct (h +:+ "/") eqn:E; [by destruct h | by rewrite IH].
Qed.

Lemma compare_digest_ascii (a b : string) :
  APIDriver.is_ascii a = true -> APIDriver.is_ascii b = true ->
  APIDriver.compare_digest a b = Ret (String.eqb a b).
Proof. intros Ha Hb. unfold APIDriver.compare_digest. by rewrite Ha, Hb. Qed.

Lemma get_config_details_host (typed_host typed_password : string) (d : gmap string json) :
  APIDriver.get_config_details typed_host typed_password = Ret d ->
  d !! "host"
  = Some (JStr (let host := match typed_host with
                            | EmptyString => "http://localhost:8000"
                            | _ => typed_host
                            end in
                if APIDriver.endswith_slash host then APIDriver.without_last host else host)) /\
  d !! "password" = Some (if String.eqb typed_password "NONE" then JNull
                          else JStr typed_password).
Proof.
  unfold APIDriver.get_config_details, APIDriver.compare_digest.
  destruct (APIDriver.is_ascii typed_password && APIDriver.is_ascii "NONE"); [|done].
  intros [= <-]. split.
  - rewrite lookup_insert_ne by done. by rewrite lookup_insert_eq.
  - by rewrite lookup_insert_eq.
Qed.

(** X15.  A host typed with a trailing slash loses exactly that one slash,
    whatever stands before it: a lone slash gives the empty host, and of
    two trailing slashes one is kept. *)
Theorem get_config_details_strips_one_slash (h typed_password : string) :
  APIDriver.is_ascii typed_password = true ->
  exists d,
    APIDriver.get_config_details (h +:+ "/") typed_password = Ret d /\
    d !! "host" = Some (JStr h).
Proof.
  intros Hp.
  destruct (APIDriver.get_config_details (h +:+ "/") typed_password) as [d|e] eqn:E.
  - exists d. split; [done|].
    destruct (get_config_details_host _ _ _ E) as [-> _]. f_equal. f_equal.
    assert (Hne : match h +:+ "/" with
                  | EmptyString => "http://localhost:8000"
                  | _ => h +:+ "/"
                  end = h +:+ "/") by (by destruct h).
    cbv zeta. rewrite Hne, endswith_slash_app. apply without_last_app.
  - unfold APIDriver.get_config_details in E.
    rewrite compare_digest_ascii in E by done. done.
Qed.

(** X16.  Nothing typed at the host prompt gives the local default; a host
    typed without a trailing slash is kept as typed. *)
Theorem get_config_details_host_default (typed_host typed_password : string) :
  APIDriver.is_ascii typed_password = true ->
  APIDriver.endswith_slash typed_host = false ->
  exists d,
    APIDriver.get_config_details typed_host typed_password = Ret d /\
    d !! "host" = Some (JStr (if String.eqb typed_host EmptyString
                              then "http://localhost:8000" else typed_host)).
Proof.
  intros Hp Hs.
  destruct (APIDriver.get_config_details typed_host typed_password) as [d|e] eqn:E.
  - exists d. split; [done|].
    destruct (get_config_details_host _ _ _ E) as [-> _].
    destruct typed_host as [|c rest]; [done|].
    cbv zeta. by rewrite Hs.
  - unfold APIDriver.get_config_details in E.
    rewrite compare_digest_ascii in E by done. done.
Qed.

(** X17.  The password [NONE], in capitals, means no password; any other
    password of ASCII characters is kept, the empty one included; a
    password with a character outside ASCII makes the comparison, and so
    the whole call, raise a [TypeError]. *)
Theorem get_config_details_password (typed_host typed_password : string) :
  (APIDriver.is_ascii typed_password = true ->
   exists d,
     APIDriver.get_config_details typed_host typed_password = Ret d /\
     (d !! "password" = Some JNull <-> typed_password = "NONE") /\
     (typed_password <> "NONE" -> d !! "password" = Some (JStr typed_password))) /\
  (APIDriver.is_ascii typed_password = false ->
   APIDriver.get_config_details typed_host typed_password
   = Raise (OtherException "TypeError")).
Proof.
  split; intros Hp.
  - destruct (APIDriver.get_config_details typed_host typed_password) as [d|e] eqn:E.
    + exists d. split; [done|].
      destruct (get_config_details_host _ _ _ E) as [_ ->].
      destruct (String.eqb_spec typed_password "NONE") as [->|Hne]; split; try done.
    + unfold APIDriver.get_config_details in E.
      rewrite compare_digest_ascii in E by done. done.
  - unfold APIDriver.get_config_details, APIDriver.compare_digest. by rewrite Hp.
Qed.

Lemma initialize_run (storage_details : gmap string json) (host password : json) :
  storage_details !! "host" = Some host ->
  storage_details !! "password" = Some password ->
  APIDriver.initialize storage_details
  = Ret {| APIDriver.cls_token := password;
           APIDriver.cls_base_url := host;
           APIDriver.cls_session := true |}.
Proof. unfold APIDriver.initialize. by intros -> ->. Qed.

(** X18.  [initialize] returns exactly when both [host] and [password] are
    among the storage details, and raises [KeyError] otherwise; further
    keys are ignored. *)
Theorem initialize_needs_host_and_password (storage_details : gmap string json) :
  (forall host password,
     storage_details !! "host" = Some host ->
     storage_details !! "password" = Some password ->
     APIDriver.initialize storage_details
     = Ret {| APIDriver.cls_token := password;
              APIDriver.cls_base_url := host;
              APIDriver.cls_session := true |}) /\
  (storage_details !! "host" = None \/ storage_details !! "password" = None ->
   APIDriver.initialize storage_details = Raise KeyError).
Proof.
  split.
  - apply initialize_run.
  - unfold APIDriver.initialize.
    intros [H|H]; rewrite H; [done|]. by destruct (storage_details !! "host").
Qed.

(** X19.  What [get_config_details] returns is accepted by [initialize]: the
    token is [None] exactly when [NONE] was typed, and the base URL is a
    string. *)
Theorem initialize_accepts_config_details (typed_host typed_password : string)
  (d : gmap string json) :
  APIDriver.get_config_details typed_host typed_password = Ret d ->
  exists attrs host,
    APIDriver.initialize d = Ret attrs /\
    APIDriver.cls_base_url attrs = JStr host /\
    APIDriver.cls_session attrs = true /\
    (APIDriver.cls_token attrs = JNull <-> typed_password = "NONE").
Proof.
  intros E. destruct (get_config_details_host _ _ _ E) as [Hh Hp].
  eexists _, _. split; [exact (initialize_run _ _ _ Hh Hp)|]. simpl.
  split; [reflexivity|]. split; [reflexivity|].
  destruct (String.eqb_spec typed_password "NONE") as [->|Hne]; split; try done.
Qed.

(** * Properties of the test configuration *)

(** X20.  The backend of the test session is the one named by
    [RED_STORAGE_TYPE] only for the three exact lower-case names; unset,
    or with any other value, the backend is JSON. *)
Theorem get_backend_type_cases (environ : gmap string string) :
  (Conftest._get_backend_type environ = Conftest.POSTGRES
   <-> environ !! "RED_STORAGE_TYPE" = Some "postgres") /\
  (Conftest._get_backend_type environ = Conftest.REDIS
   <-> environ !! "RED_STORAGE_TYPE" = Some "redis") /\
  (Conftest._get_backend_type environ = Conftest.SQL
   <-> environ !! "RED_STORAGE_TYPE" = Some "sql") /\
  (Conftest._get_backend_type environ = Conftest.JSON
   <-> environ !! "RED_STORAGE_TYPE" <> Some "postgres" /\
       environ !! "RED_STORAGE_TYPE" <> Some "redis" /\
       environ !! "RED_STORAGE_TYPE" <> Some "sql").
Proof.
  unfold Conftest._get_backend_type.
  destruct (environ !! "RED_STORAGE_TYPE") as [v|]; [|by repeat split].
  destruct (String.eqb_spec v "postgres") as [->|H1]; [by repeat split; try intros (? & ? & ?)|].
  destruct (String.eqb_spec v "redis") as [->|H2]; [by repeat split; try intros (? & ? & ?)|].
  destruct (String.eqb_spec v "sql") as [->|H3]; [by repeat split; try intros (? & ? & ?)|].
  repeat split; try done; congruence.
Qed.

(** For every backend but Redis the storage details are empty, whatever
    the environment holds: [int] is not called and nothing is raised. *)
Lemma storage_details_empty_unless_redis (int : string -> outcome Z)
  (environ : gmap string string) (backend_type : Conftest.BackendType) :
  backend_type <> Conftest.REDIS ->
  Conftest.storage_details int environ backend_type = Ret ∅.
Proof. by destruct backend_type. Qed.

Lemma falsy_default {A} (v : option string) (a b : string -> A) (d : A) :
  v = None \/ v = Some EmptyString ->
  match v with
  | Some (String c rest) => a (String c rest)
  | _ => d
  end = d.
Proof. by intros [-> | ->]. Qed.

(** X21.  For Redis, a port and a database index that are unset or empty give
    6379 and 0 without a call of [int], so nothing is raised; a host that
    is unset or empty gives [localhost]. *)
Theorem redis_defaults (int : string -> outcome Z) (environ : gmap string string) :
  (environ !! "REDIS_PORT" = None \/ environ !! "REDIS_PORT" = Some EmptyString) ->
  (environ !! "REDIS_DATABASE" = None \/ environ !! "REDIS_DATABASE" = Some EmptyString) ->
  exists d,
    Conftest.storage_details int environ Conftest.REDIS = Ret d /\
    d !! "port" = Some (JInt 6379) /\
    d !! "database" = Some (JInt 0) /\
    (environ !! "REDIS_HOST" = None \/ environ !! "REDIS_HOST" = Some EmptyString ->
     d !! "host" = Some (JStr "localhost")).
Proof.
  intros Hp Hd. unfold Conftest.storage_details.
  rewrite (falsy_default _ int int (Ret 6379) Hp).
  rewrite (falsy_default _ int int (Ret 0) Hd).
  eexists. split; [reflexivity|]. split; [|split].
  - by rewrite !lookup_insert_ne, lookup_insert_eq by done.
  - by rewrite lookup_insert_eq.
  - intros Hh. rewrite !lookup_insert_ne, lookup_insert_eq by done.
    by rewrite (falsy_default _ (fun s => s) (fun s => s) "localhost" Hh).
Qed.

(** X22.  For Redis, the password is [None] exactly when [REDIS_PASSWORD] is
    unset or is [NONE]; an empty password is kept as the empty string. *)
Theorem redis_password (int : string -> outcome Z) (environ : gmap string string)
  (d : gmap string json) :
  Conftest.storage_details int environ Conftest.REDIS = Ret d ->
  (d !! "password" = Some JNull
   <-> environ !! "REDIS_PASSWORD" = None \/ environ !! "REDIS_PASSWORD" = Some "NONE") /\
  (forall pw, environ !! "REDIS_PASSWORD" = Some pw -> pw <> "NONE" ->
     d !! "password" = Some (JStr pw)).
Proof.
  unfold Conftest.storage_details.
  destruct (match environ !! "REDIS_PORT" with
            | Some (String c rest) => int (String c rest)
            | _ => Ret 6379
            end) as [port|]; [|done].
  destruct (match environ !! "REDIS_DATABASE" with
            | Some (String c rest) => int (String c rest)
            | _ => Ret 0
            end) as [database|]; [|done].
  intros [= <-]. rewrite lookup_insert_ne, lookup_insert_eq by done.
  destruct (environ !! "REDIS_PASSWORD") as [pw|]; simpl.
  - destruct (String.eqb_spec pw "NONE") as [->|Hne]; simpl; split.
    + split; [by right | done].
    + by intros pw [= <-].
    + split; [done | by intros [|[= ->]]].
    + by intros pw' [= <-].
  - split; [split; [by left | done] | done].
Qed.

Lemma int_or_default_raise (v : option string) (int : string -> outcome Z) (d : Z) (e : exn) :
  match v with
  | Some (String c rest) => int (String c rest)
  | _ => Ret d
  end = Raise e ->
  exists text, text <> EmptyString /\ v = Some text /\ int text = Raise e.
Proof.
  destruct v as [[|c rest]|]; try done.
  intros H. exists (String c rest). by repeat split.
Qed.

(** X23.  The storage details raise only for Redis, and only what [int]
    raised on the non-empty text of [REDIS_PORT] or of
    [REDIS_DATABASE]. *)
Theorem storage_details_raises_only_int_errors (int : string -> outcome Z)
  (environ : gmap string string) (backend_type : Conftest.BackendType) (e : exn) :
  Conftest.storage_details int environ backend_type = Raise e ->
  backend_type = Conftest.REDIS /\
  exists text,
    text <> EmptyString /\
    int text = Raise e /\
    (environ !! "REDIS_PORT" = Some text \/ environ !! "REDIS_DATABASE" = Some text).
Proof.
  destruct backend_type; try done. intros H. split; [done|].
  unfold Conftest.storage_details in H.
  destruct (match environ !! "REDIS_PORT" with
            | Some (String c rest) => int (String c rest)
            | _ => Ret 6379
            end) as [port|e1] eqn:Ep.
  - destruct (match environ !! "REDIS_DATABASE" with
              | Some (String c rest) => int (String c rest)
              | _ => Ret 0
              end) as [database|e2] eqn:Ed; [done|].
    injection H as ->.
    destruct (int_or_default_raise _ _ _ _ Ed) as (text & Hne & Hv & Hi).
    exists text. split; [exact Hne|]. split; [exact Hi|]. by right.
  - injection H as ->.
    destruct (int_or_default_raise _ _ _ _ Ep) as (text & Hne & Hv & Hi).
    exists text. split; [exact Hne|]. split; [exact Hi|]. by left.
Qed.

(** * Further properties of the cache manager *)
Section ManagerMore.
Import LavalinkAutoUpdateManager.
Context `{Cfg : Config}.

(** With nothing cached, [get_global] awaits the read, whether caching
    is enabled or not. *)
Lemma get_global_miss (self : t) :
  _cached_global self !! tt = None ->
  fst (get_global self) = fst (autoupdate_call (_config self)) /\
  _config (snd (get_global self)) = snd (autoupdate_call (_config self)) /\
  config_calls (snd (get_global self)) = config_calls self ++ [CallRead].
Proof.
  intros Hm. unfold get_global, none_in_cached_global. rewrite Hm.
  rewrite bool_decide_eq_false_2 by (by intros [? ?]).
  rewrite andb_false_r.
  by destruct (autoupdate_call (_config self)) as [[ret|e] config].
Qed.

Lemma reset_globals_lookup (self : t) : _cached_global (reset_globals self) !! tt = None.
Proof.
  unfold reset_globals, none_in_cached_global.
  destruct (bool_decide (is_Some (_cached_global self !! tt))) eqn:E; simpl.
  - apply lookup_delete_eq.
  - apply bool_decide_eq_false in E. by apply eq_None_not_Some.
Qed.

(** X24.  After [reset_globals] the cache dictionary is empty, and the
    [Config] object and the count of calls on it are untouched; resetting
    an empty cache changes nothing. *)
Theorem reset_globals_empties_cache (self : t) :
  _cached_global (reset_globals self) = ∅ /\
  _config (reset_globals self) = _config self /\
  config_calls (reset_globals self) = config_calls self /\
  enable_cache (reset_globals self) = enable_cache self /\
  reset_globals (reset_globals self) = reset_globals self.
Proof.
  assert (He : _cached_global (reset_globals self) = ∅).
  { apply map_eq. intros []. rewrite lookup_empty. apply reset_globals_lookup. }
  split; [exact He|].
  assert (Hrest : _config (reset_globals self) = _config self /\
                  config_calls (reset_globals self) = config_calls self /\
                  enable_cache (reset_globals self) = enable_cache self).
  { unfold reset_globals. by destruct (none_in_cached_global self). }
  destruct Hrest as (H1 & H2 & H3). repeat split; try done.
  unfold reset_globals at 1. unfold none_in_cached_global.
  rewrite reset_globals_lookup.
  by rewrite bool_decide_eq_false_2 by (by intros [? ?]).
Qed.

(** X25.  The [get_global] that follows [reset_globals] awaits exactly one read
    of the [Config] object and returns its outcome, with caching enabled
    as well as disabled. *)
Theorem reset_forces_read (self : t) :
  fst (get_global (reset_globals self)) = fst (autoupdate_call (_config self)) /\
  config_calls (snd (get_global (reset_globals self))) = config_calls self ++ [CallRead].
Proof.
  destruct (get_global_miss (reset_globals self) (reset_globals_lookup self))
    as (Hret & _ & Hcalls).
  assert (Hrest : _config (reset_globals self) = _config self /\
                  config_calls (reset_globals self) = config_calls self).
  { unfold reset_globals. by destruct (none_in_cached_global self). }
  destruct Hrest as [Hc Hl]. by rewrite Hret, Hcalls, Hc, Hl.
Qed.

(** X26.  With caching enabled, a [get_global] that returns fills the cache:
    the next [get_global] returns the same value and leaves the manager,
    and so the [Config] object, as it is. *)
Theorem get_global_populates_cache (self self' : t) (ret : bool) :
  enable_cache self = true ->
  get_global self = (Ret ret, self') ->
  get_global self' = (Ret ret, self').
Proof.
  intros He H. unfold get_global in H. rewrite He in H. simpl in H.
  destruct (none_in_cached_global self) eqn:En.
  - destruct (_cached_global self !! tt) as [v|] eqn:Ev; [|done].
    injection H as -> <-. by apply get_global_hit.
  - destruct (autoupdate_call (_config self)) as [[v|e] config]; [|done].
    injection H as -> <-. apply get_global_hit; [done|]. simpl.
    by rewrite lookup_insert_eq.
Qed.

(** X27.  A call that raises leaves the cache dictionary as it was: the cache
    is written only once the awaited call on the [Config] object has
    returned. *)
Theorem raising_call_keeps_cache (self : t) (e : exn) :
  (fst (get_global self) = Raise e ->
   _cached_global (snd (get_global self)) = _cached_global self) /\
  (forall set_to,
     fst (set_global self set_to) = Raise e ->
     _cached_global (snd (set_global self set_to)) = _cached_global self).
Proof.
  split.
  - unfold get_global.
    destruct (enable_cache self && none_in_cached_global self).
    + by destruct (_cached_global self !! tt).
    + by destruct (autoupdate_call (_config self)) as [[v|e'] config].
  - intros set_to. unfold set_global. destruct set_to as [v|].
    + by destruct (autoupdate_set v (_config self)) as [[[]|e'] config].
    + destruct (autoupdate_clear (_config self)) as [[[]|e'] config]; [|done].
      by destruct (declared_default config).
Qed.

(** X28.  The reset to the default when no default is declared: the clearing
    call is awaited and returns, then the lookup in [defaults] raises
    [KeyError]; the cache keeps the value it held, which the next
    [get_global], with caching enabled, still returns without a read. *)
Theorem reset_without_declared_default_keeps_stale_value (self : t) (config : Store)
  (v : bool) :
  enable_cache self = true ->
  _cached_global self !! tt = Some v ->
  autoupdate_clear (_config self) = (Ret tt, config) ->
  declared_default config = None ->
  fst (set_global self None) = Raise KeyError /\
  _config (snd (set_global self None)) = config /\
  config_calls (snd (set_global self None)) = config_calls self ++ [CallClear] /\
  get_global (snd (set_global self None)) = (Ret v, snd (set_global self None)).
Proof.
  intros He Hv Hc Hd. unfold set_global. rewrite Hc, Hd. simpl.
  repeat split. by apply get_global_hit.
Qed.

(** X29.  No operation changes [enable_cache], and each of [get_global] and
    [set_global] awaits at most one call on the [Config] object. *)
Theorem manager_invariants (self : t) :
  (enable_cache (snd (get_global self)) = enable_cache self /\
   exists calls, config_calls (snd (get_global self)) = config_calls self ++ calls /\
                 (length calls <= 1)%nat) /\
  (forall set_to,
     enable_cache (snd (set_global self set_to)) = enable_cache self /\
     exists c, config_calls (snd (set_global self set_to)) = config_calls self ++ [c] /\
               c = match set_to with Some v => CallSet v | None => CallClear end).
Proof.
  split.
  - unfold get_global.
    destruct (enable_cache self && none_in_cached_global self).
    + destruct (_cached_global self !! tt); (split; [done|]);
        exists []; simpl; rewrite app_nil_r; split; [done | lia | done | lia].
    + destruct (autoupdate_call (_config self)) as [[v|e'] config]; (split; [done|]);
        exists [CallRead]; simpl; split; [done | lia | done | lia].
  - intros set_to. unfold set_global. destruct set_to as [v|].
    + destruct (autoupdate_set v (_config self)) as [[[]|e'] config]; (split; [done|]);
        by eexists.
    + destruct (autoupdate_clear (_config self)) as [[[]|e'] config].
      * destruct (declared_default config); (split; [done|]); by eexists.
      * split; [done|]. by eexists.
Qed.

(** X30.  A manager just built has an empty cache: its first [get_global]
    awaits the read even with caching enabled. *)
Theorem first_get_global_reads (config : Store) (enable : bool) :
  fst (get_global (init config enable)) = fst (autoupdate_call config) /\
  config_calls (snd (get_global (init config enable))) = [CallRead].
Proof.
  destruct (get_global_miss (init config enable) (lookup_empty _)) as (Hret & _ & Hcalls).
  by rewrite Hret, Hcalls.
Qed.

End ManagerMore.

(** * The further properties on concrete inputs *)

Lemma undecodable_body_witness :
  @APIDriver.json_loads Demo.with_orjson "Internal Server Error" = None /\
  fst (@perform Demo.base Demo.with_orjson Demo.scripted Demo.driver
         (DoClear Demo.global_flag)
         (Demo.start [Ret {| status := 200; body := "Internal Server Error" |}]))
  = Raise JSONDecodeError /\
  fst (@APIDriver.get Demo.base Demo.with_orjson Demo.scripted Demo.driver Demo.global_flag
         (Demo.start [Ret {| status := 503; body := "Internal Server Error" |}]))
  = Raise KeyError.
Proof.
  assert (H : @APIDriver.json_loads Demo.with_orjson "Internal Server Error" = None)
    by reflexivity.
  split; [exact H|]. split.
  - destruct (@undecodable_body Demo.base Demo.with_orjson Demo.scripted Demo.driver
                (Demo.start [Ret {| status := 200; body := "Internal Server Error" |}])
                {| status := 200; body := "Internal Server Error" |} H) as [Hw _].
    apply (Hw (DoClear Demo.global_flag)). reflexivity.
  - destruct (@undecodable_body Demo.base Demo.with_orjson Demo.scripted Demo.driver
                (Demo.start [Ret {| status := 503; body := "Internal Server Error" |}])
                {| status := 503; body := "Internal Server Error" |} H) as [_ Hg].
    apply (Hg Demo.global_flag). reflexivity.
Defined.

Lemma session_failure_propagates_witness :
  fst (@APIDriver.get Demo.base Demo.with_orjson Demo.scripted Demo.driver Demo.global_flag
         (Demo.start []))
  = Raise (OtherException "ClientConnectionError") /\
  fst (@perform Demo.base Demo.with_orjson Demo.scripted Demo.driver
         (DoToggle Demo.global_flag None (Some false)) (Demo.start []))
  = Raise (OtherException "ClientConnectionError").
Proof.
  destruct (@session_failure_propagates Demo.base Demo.with_orjson Demo.scripted Demo.driver
              (Demo.start []) (OtherException "ClientConnectionError")) as (Hw & Hg & _).
  split; [apply Hg; reflexivity | apply Hw; reflexivity].
Defined.

Lemma status_200_not_a_mapping_witness :
  status (Demo.reply 200 (JInt 7)) = 200 /\
  fst (@perform Demo.base Demo.with_orjson Demo.scripted Demo.driver
         (DoInc Demo.global_flag 1 6) (Demo.start [Ret (Demo.reply 200 (JInt 7))]))
  = Raise AttributeError /\
  fst (@APIDriver.get Demo.base Demo.with_orjson Demo.scripted Demo.driver Demo.global_flag
         (Demo.start [Ret (Demo.reply 200 (JInt 7))]))
  = Ret (PJson (JInt 7)).
Proof.
  split; [reflexivity|].
  assert (Hn : forall kvs, JInt 7 <> JObj kvs) by discriminate.
  destruct (@status_200_not_a_mapping Demo.base Demo.with_orjson Demo.scripted Demo.driver
              (Demo.start [Ret (Demo.reply 200 (JInt 7))]) (Demo.reply 200 (JInt 7)) (JInt 7)
              eq_refl eq_refl Hn) as [Hw Hg].
  split; [apply (Hw (DoInc Demo.global_flag 1 6)); reflexivity | apply Hg; reflexivity].
Defined.

Lemma status_200_without_value_witness :
  ~ In "value" (List.map fst [("detail", JStr "denied")]) /\
  fst (@perform Demo.base Demo.with_orjson Demo.scripted Demo.driver
         (DoSet Demo.global_flag (JBool true))
         (Demo.start [Ret (Demo.reply 200 Demo.detail_denied)]))
  = Ret JNull.
Proof.
  assert (Hn : ~ In "value" (List.map fst [("detail", JStr "denied")])).
  { simpl. intros [H|[]]. discriminate H. }
  split; [exact Hn|].
  apply (@status_200_without_value Demo.base Demo.with_orjson Demo.scripted Demo.driver
           (Demo.start [Ret (Demo.reply 200 Demo.detail_denied)])
           (Demo.reply 200 Demo.detail_denied) [("detail", JStr "denied")]
           eq_refl eq_refl Hn (DoSet Demo.global_flag (JBool true))).
  reflexivity.
Defined.

Lemma aiter_cogs_ignores_status_witness :
  status (Demo.reply 404 Demo.detail_denied) = 404 /\
  fst (@APIDriver.aiter_cogs Demo.with_orjson Demo.scripted Demo.driver
         (Demo.start [Ret (Demo.reply 404 Demo.detail_denied)]))
  = Ret (PJson Demo.detail_denied).
Proof.
  split; [reflexivity|].
  apply (@aiter_cogs_ignores_status Demo.with_orjson Demo.scripted Demo.driver
           (Demo.start [Ret (Demo.reply 404 Demo.detail_denied)])
           (Demo.reply 404 Demo.detail_denied) Demo.detail_denied eq_refl eq_refl).
Defined.

Lemma import_data_raises_only_helper_errors_witness :
  let run := @APIDriver.import_data Demo.base Demo.with_orjson Demo.scripted Demo.driver
               [("GUILD", Demo.guild_data); ("PLAYLIST", JNull)] Demo.categories
               (Demo.start [Ret (Demo.reply 200 Demo.value_null)]) in
  run = (Raise KeyError, snd run) /\
  (KeyError = construction_error \/
   Exists (fun row =>
             @get_pkey_info Demo.base (fst row) Demo.categories = Raise KeyError \/
             @_split_primary_key Demo.base (fst row) Demo.categories (snd row)
             = Raise KeyError)
     [("GUILD", Demo.guild_data); ("PLAYLIST", JNull)]).
Proof.
  intros run.
  assert (H : run = (Raise KeyError, snd run)) by reflexivity.
  split; [exact H|].
  exact (@import_data_raises_only_helper_errors Demo.base Demo.with_orjson Demo.scripted
           Demo.driver [("GUILD", Demo.guild_data); ("PLAYLIST", JNull)] Demo.categories
           (Demo.start [Ret (Demo.reply 200 Demo.value_null)]) (snd run) KeyError H).
Defined.

Lemma import_data_aborts_on_unknown_category_witness :
  @get_pkey_info Demo.base "PLAYLIST" Demo.categories = Raise KeyError /\
  fst (@APIDriver.import_data Demo.base Demo.with_orjson Demo.scripted Demo.driver
         [("PLAYLIST", JNull); ("GUILD", Demo.guild_data)] Demo.categories
         (Demo.start [Ret (Demo.reply 200 Demo.value_null)]))
  = Raise KeyError /\
  exchanges (snd (@APIDriver.import_data Demo.base Demo.with_orjson Demo.scripted Demo.driver
                    [("PLAYLIST", JNull); ("GUILD", Demo.guild_data)] Demo.categories
                    (Demo.start [Ret (Demo.reply 200 Demo.value_null)])))
  = [].
Proof.
  assert (H : @get_pkey_info Demo.base "PLAYLIST" Demo.categories = Raise KeyError)
    by reflexivity.
  split; [exact H|].
  exact (@import_data_aborts_on_unknown_category Demo.base Demo.with_orjson Demo.scripted
           Demo.driver "PLAYLIST" JNull [("GUILD", Demo.guild_data)] Demo.categories
           (Demo.start [Ret (Demo.reply 200 Demo.value_null)]) KeyError H).
Defined.

Lemma import_data_all_accepted_witness :
  APIDriver.cog_name Demo.driver <> EmptyString /\
  (forall req n,
     returns (@set_result Demo.base Demo.with_orjson
                (fst (@http (always_answers (Demo.reply 200 Demo.value_null)) req n))) = true) /\
  exists w' xs,
    @APIDriver.import_data Demo.base Demo.with_orjson
      (always_answers (Demo.reply 200 Demo.value_null)) Demo.driver
      [("GLOBAL", JObj [("volume", JInt 50)]); ("GUILD", Demo.guild_data)] Demo.categories
      (@Build_world (always_answers (Demo.reply 200 Demo.value_null)) tt [] [])
    = (Ret tt, w') /\
    exchanges w' = [] ++ xs /\
    length xs = 2%nat /\
    List.filter is_critical (log w') = [].
Proof.
  assert (Hn : APIDriver.cog_name Demo.driver <> EmptyString) by discriminate.
  assert (Hok : forall req n,
             returns (@set_result Demo.base Demo.with_orjson
                        (fst (@http (always_answers (Demo.reply 200 Demo.value_null)) req n)))
             = true) by reflexivity.
  split; [exact Hn|]. split; [exact Hok|].
  apply (@import_data_all_accepted Demo.base Demo.with_orjson
           (always_answers (Demo.reply 200 Demo.value_null)) Demo.driver
           [("GLOBAL", JObj [("volume", JInt 50)]); ("GUILD", Demo.guild_data)] Demo.categories
           (@Build_world (always_answers (Demo.reply 200 Demo.value_null)) tt [] []) Hn Hok).
  constructor; [|constructor; [|constructor]].
  - exists (0%nat, false). repeat split.
  - exists (1%nat, false). repeat split.
Defined.

Lemma get_config_details_strips_one_slash_witness :
  APIDriver.is_ascii "hunter2" = true /\
  exists d,
    APIDriver.get_config_details "https://config.example.org/" "hunter2" = Ret d /\
    d !! "host" = Some (JStr "https://config.example.org").
Proof.
  split; [reflexivity|].
  exact (get_config_details_strips_one_slash "https://config.example.org" "hunter2" eq_refl).
Defined.

Lemma get_config_details_host_default_witness :
  APIDriver.is_ascii "NONE" = true /\
  APIDriver.endswith_slash EmptyString = false /\
  exists d,
    APIDriver.get_config_details EmptyString "NONE" = Ret d /\
    d !! "host" = Some (JStr "http://localhost:8000").
Proof.
  split; [reflexivity|]. split; [reflexivity|].
  exact (get_config_details_host_default EmptyString "NONE" eq_refl eq_refl).
Defined.

Lemma get_config_details_password_witness :
  APIDriver.is_ascii "none" = true /\
  (exists d,
     APIDriver.get_config_details "http://localhost:8000" "none" = Ret d /\
     (d !! "password" = Some JNull <-> "none" = "NONE") /\
     ("none" <> "NONE" -> d !! "password" = Some (JStr "none"))) /\
  APIDriver.is_ascii (String "195"%char (String "169"%char EmptyString)) = false /\
  APIDriver.get_config_details "http://localhost:8000"
    (String "195"%char (String "169"%char EmptyString))
  = Raise (OtherException "TypeError").
Proof.
  split; [reflexivity|].
  destruct (get_config_details_password "http://localhost:8000" "none") as [Hascii _].
  split; [exact (Hascii eq_refl)|].
  split; [reflexivity|].
  destruct (get_config_details_password "http://localhost:8000"
              (String "195"%char (String "169"%char EmptyString))) as [_ Hother].
  exact (Hother eq_refl).
Defined.

Lemma initialize_needs_host_and_password_witness :
  APIDriver.initialize (<["host" := JStr "http://localhost:8000"]> ∅) = Raise KeyError /\
  APIDriver.initialize
    (<["port" := JInt 6379]>
       (<["password" := JNull]> (<["host" := JStr "http://localhost:8000"]> ∅)))
  = Ret {| APIDriver.cls_token := JNull;
           APIDriver.cls_base_url := JStr "http://localhost:8000";
           APIDriver.cls_session := true |}.
Proof.
  split.
  - destruct (initialize_needs_host_and_password
                (<["host" := JStr "http://localhost:8000"]> ∅)) as [_ H].
    apply H. right. reflexivity.
  - destruct (initialize_needs_host_and_password
                (<["port" := JInt 6379]>
                   (<["password" := JNull]>
                      (<["host" := JStr "http://localhost:8000"]> ∅)))) as [H _].
    apply H; reflexivity.
Defined.

Lemma initialize_accepts_config_details_witness :
  exists d attrs host,
    APIDriver.get_config_details "http://10.0.0.2:8000/" "NONE" = Ret d /\
    APIDriver.initialize d = Ret attrs /\
    APIDriver.cls_base_url attrs = JStr host /\
    APIDriver.cls_session attrs = true /\
    (APIDriver.cls_token attrs = JNull <-> "NONE" = "NONE").
Proof.
  eexists.
  assert (H : APIDriver.get_config_details "http://10.0.0.2:8000/" "NONE"
              = Ret (<["password" := JNull]> (<["host" := JStr "http://10.0.0.2:8000"]> ∅)))
    by reflexivity.
  destruct (initialize_accepts_config_details _ _ _ H) as (attrs & host & Hrest).
  exists attrs, host. split; [exact H | exact Hrest].
Defined.

Lemma redis_defaults_witness :
  let environ : gmap string string :=
    <["REDIS_PORT" := EmptyString]> (<["RED_STORAGE_TYPE" := "redis"]> ∅) in
  Conftest._get_backend_type environ = Conftest.REDIS /\
  exists d,
    Conftest.storage_details (fun _ => Raise (OtherException "ValueError")) environ
      (Conftest._get_backend_type environ) = Ret d /\
    d !! "port" = Some (JInt 6379) /\
    d !! "database" = Some (JInt 0) /\
    (environ !! "REDIS_HOST" = None \/ environ !! "REDIS_HOST" = Some EmptyString ->
     d !! "host" = Some (JStr "localhost")).
Proof.
  intros environ. split; [reflexivity|].
  apply (redis_defaults (fun _ => Raise (OtherException "ValueError")) environ).
  - right. reflexivity.
  - left. reflexivity.
Defined.

Lemma redis_password_witness :
  let environ : gmap string string := <["REDIS_PASSWORD" := EmptyString]> ∅ in
  let d : gmap string json :=
    <["database" := JInt 0]>
      (<["password" := JStr EmptyString]>
         (<["port" := JInt 6379]> (<["host" := JStr "localhost"]> ∅))) in
  Conftest.storage_details (fun _ => Raise (OtherException "ValueError")) environ Conftest.REDIS
  = Ret d /\
  d !! "password" = Some (JStr EmptyString).
Proof.
  intros environ d.
  assert (H : Conftest.storage_details (fun _ => Raise (OtherException "ValueError")) environ
                Conftest.REDIS = Ret d) by reflexivity.
  split; [exact H|].
  destruct (redis_password _ _ _ H) as [_ Hkeep].
  apply (Hkeep EmptyString); [reflexivity | discriminate].
Defined.

Lemma storage_details_raises_only_int_errors_witness :
  let environ : gmap string string := <["REDIS_DATABASE" := "one"]> ∅ in
  Conftest.storage_details (fun _ => Raise (OtherException "ValueError")) environ Conftest.REDIS
  = Raise (OtherException "ValueError") /\
  exists text,
    text <> EmptyString /\
    (fun _ : string => @Raise Z (OtherException "ValueError")) text
    = Raise (OtherException "ValueError") /\
    (environ !! "REDIS_PORT" = Some text \/ environ !! "REDIS_DATABASE" = Some text).
Proof.
  intros environ.
  assert (H : Conftest.storage_details (fun _ => Raise (OtherException "ValueError")) environ
                Conftest.REDIS = Raise (OtherException "ValueError")) by reflexivity.
  split; [exact H|].
  destruct (storage_details_raises_only_int_errors _ _ _ _ H) as [_ Hex]. exact Hex.
Defined.

Lemma get_global_populates_cache_witness :
  let self := @LavalinkAutoUpdateManager.init LavalinkAutoUpdateManager.simple_config
                {| LavalinkAutoUpdateManager.stored := None;
                   LavalinkAutoUpdateManager.registered :=
                     LavalinkAutoUpdateManager.registered_with true |}
                true in
  let self' := snd (LavalinkAutoUpdateManager.get_global self) in
  LavalinkAutoUpdateManager.get_global self = (Ret true, self') /\
  LavalinkAutoUpdateManager.get_global self' = (Ret true, self').
Proof.
  intros self self'.
  assert (H : LavalinkAutoUpdateManager.get_global self = (Ret true, self'))
    by (vm_compute; reflexivity).
  split; [exact H|].
  exact (@get_global_populates_cache LavalinkAutoUpdateManager.simple_config
           self self' true eq_refl H).
Defined.

Lemma raising_call_keeps_cache_witness :
  let self := @LavalinkAutoUpdateManager.init LavalinkAutoUpdateManager.simple_config
                {| LavalinkAutoUpdateManager.stored := None;
                   LavalinkAutoUpdateManager.registered := ∅ |}
                true in
  fst (LavalinkAutoUpdateManager.get_global self) = Raise AttributeError /\
  LavalinkAutoUpdateManager._cached_global (snd (LavalinkAutoUpdateManager.get_global self))
  = LavalinkAutoUpdateManager._cached_global self.
Proof.
  intros self.
  assert (H : fst (LavalinkAutoUpdateManager.get_global self) = Raise AttributeError)
    by reflexivity.
  split; [exact H|].
  destruct (@raising_call_keeps_cache LavalinkAutoUpdateManager.simple_config self
              AttributeError) as [Hget _].
  exact (Hget H).
Defined.

Lemma reset_without_declared_default_keeps_stale_value_witness :
  let before := {| LavalinkAutoUpdateManager.stored := Some true;
                   LavalinkAutoUpdateManager.registered := ∅ |} in
  let after := {| LavalinkAutoUpdateManager.stored := None;
                  LavalinkAutoUpdateManager.registered := ∅ |} in
  let self := snd (LavalinkAutoUpdateManager.get_global
                     (@LavalinkAutoUpdateManager.init LavalinkAutoUpdateManager.simple_config
                        before true)) in
  LavalinkAutoUpdateManager._cached_global self !! tt = Some true /\
  fst (LavalinkAutoUpdateManager.set_global self None) = Raise KeyError /\
  LavalinkAutoUpdateManager._config (snd (LavalinkAutoUpdateManager.set_global self None))
  = after /\
  fst (LavalinkAutoUpdateManager.get_global
         (snd (LavalinkAutoUpdateManager.set_global self None)))
  = Ret true.
Proof.
  intros before after self.
  assert (Hv : LavalinkAutoUpdateManager._cached_global self !! tt = Some true)
    by (vm_compute; reflexivity).
  split; [exact Hv|].
  destruct (@reset_without_declared_default_keeps_stale_value
              LavalinkAutoUpdateManager.simple_config self after true
              eq_refl Hv eq_refl eq_refl) as (Hraise & Hconfig & _ & Hget).
  split; [exact Hraise|]. split; [exact Hconfig|]. by rewrite Hget.
Defined.

Lemma every_operation_is_one_call_witness :
  forallb serialisable (@dumped_values Demo.base (DoInc Demo.global_flag 1 6)) = true /\
  List.map fst
    (exchanges (snd (@perform Demo.base Demo.with_orjson Demo.scripted Demo.driver
                       (DoInc Demo.global_flag 1 6)
                       (Demo.start [Ret (Demo.reply 500 Demo.detail_denied)]))))
  = [@APIDriver.inc_request Demo.base Demo.with_orjson Demo.driver Demo.global_flag 1 6].
Proof.
  assert (Hs : forallb serialisable (@dumped_values Demo.base (DoInc Demo.global_flag 1 6))
               = true) by reflexivity.
  split; [exact Hs|].
  destruct (@every_operation_is_one_call Demo.base Demo.with_orjson Demo.scripted Demo.driver
              (Demo.start [Ret (Demo.reply 500 Demo.detail_denied)])) as [Hw _].
  destruct (Hw (DoInc Demo.global_flag 1 6) Hs) as [Hx _].
  rewrite Hx. reflexivity.
Defined.
